(** * Manifest aggregation of [multi_dataset.py]

    A shallow embedding of the class [MultiDataset] of
    [egs/speech_llm/ASR_LLM/whisper_llm_zh/multi_dataset.py] and the
    properties of its accessors.

    The class is glue code over three foreign operations: [pathlib]'s
    path join, [lhotse.load_manifest_lazy] and [CutSet.mux], plus Python's
    [len] and [logging.info].  Every accessor is embedded as a program of a
    small monad that records, in order, each of these calls, so that what
    an accessor opens, what it reads and what it returns can all be stated
    about one run. *)

From Stdlib Require Import Ascii String.
From stdpp Require Import gmap strings list fin_maps pretty.

Open Scope string_scope.

(** ** Paths *)

(** A [pathlib] pure POSIX path: its root (empty for a relative path, ["/"]
    or ["//"]) and its components. *)
Record PurePath := mkPurePath { anchor : string; parts : list string }.

Global Instance PurePath_eq_dec : EqDecision PurePath.
Proof. solve_decision. Defined.

Definition is_slash (c : ascii) : bool := bool_decide (c = "/"%char).

(** [s.split("/")] *)
Fixpoint split_slash (s : string) : list string :=
  match s with
  | EmptyString => [EmptyString]
  | String c r =>
      if is_slash c then EmptyString :: split_slash r
      else match split_slash r with
           | h :: t => String c h :: t
           | [] => [String c EmptyString]
           end
  end.

(** The pieces of a path string that [pathlib] keeps as components:
    empty pieces (doubled or trailing separators) and ["."] are dropped. *)
Definition is_component (c : string) : bool :=
  negb (bool_decide (c = EmptyString)) && negb (bool_decide (c = ".")).

Definition components (s : string) : list string :=
  filter (fun c => is_component c = true) (split_slash s).



(** The root of a path string: exactly two leading separators are kept,
    one or three and more make ["/"]. *)
Definition leading_root (s : string) : string :=
  match s with
  | String c1 (String c2 (String c3 _)) =>
      if is_slash c1
      then if is_slash c2 then if is_slash c3 then "/" else "//" else "/"
      else EmptyString
  | String c1 (String c2 EmptyString) =>
      if is_slash c1 then if is_slash c2 then "//" else "/" else EmptyString
  | String c1 EmptyString => if is_slash c1 then "/" else EmptyString
  | EmptyString => EmptyString
  end.

(** [Path(s)]: the string is parsed, not kept as it is. *)
Definition Path (s : string) : PurePath :=
  {| anchor := leading_root s; parts := components s |}.

(** ["/".join(cs)] *)
Fixpoint join_slash (cs : list string) : string :=
  match cs with
  | [] => EmptyString
  | [c] => c
  | c :: cs' => c +:+ "/" +:+ join_slash cs'
  end.

(** [str(p)] *)
Definition render (p : PurePath) : string :=
  match anchor p, parts p with
  | EmptyString, [] => "."
  | a, cs => a +:+ join_slash cs
  end.

(** [p / name], for a plain relative name: every name the program joins
    is one file or directory name, so joining appends one component. *)
Definition joinpath (p : PurePath) (name : string) : PurePath :=
  {| anchor := anchor p; parts := parts p ++ [name] |}.

Notation "p </> name" := (joinpath p name) (at level 40, left associativity).

(** ** The world outside the program *)

(** One record of a [.jsonl.gz] manifest. *)
Definition Cut : Type := string.

(** What the program cannot see in its own text: which manifests exist
    (and what they hold), and which loader it runs against.
    [opens_eagerly] is true of [lhotse]'s [load_manifest_lazy], which
    looks at the file when a handle is opened; it is false of the loader
    the description of the interface has in mind, which leaves every
    check to the first read of the handle.  The program's text is the
    same for both. *)
Record World := mkWorld {
  manifest : PurePath -> option (list Cut);
  opens_eagerly : bool
}.

Definition present (w : World) (p : PurePath) : bool :=
  match manifest w p with Some _ => true | None => false end.

(** The manifest at [p] is there and holds at least one record. *)
Definition nonempty (w : World) (p : PurePath) : bool :=
  match manifest w p with Some (_ :: _) => true | _ => false end.

(** Opening [p] gives a handle: the loader defers the check, or the file
    is there with a record in it. *)
Definition openable (w : World) (p : PurePath) : bool :=
  negb (opens_eagerly w) || nonempty w p.

(** ** Collections *)

#[local] Set Warnings "-register-all".

(** What [load_manifest_lazy] and [CutSet.mux] hand back: a [CutSet]
    object, or [None].  [oid] is the identity of the Python object, a
    fresh one for every object created; [None] is no new object. *)
Inductive CutSet :=
| LazyCuts (oid : nat) (path : PurePath)
| MuxCuts (oid : nat) (sources : list CutSet) (weights : list nat)
| PyNone.

Inductive Exception :=
| FileNotFoundError (p : PurePath)
| TypeError.

Inductive Outcome (A : Type) :=
| Returned (a : A)
| Raised (e : Exception).
Arguments Returned {A} a.
Arguments Raised {A} e.

(** ** Calls the program makes, in the order it makes them *)
Inductive Event :=
| Log (msg : string)        (* logging.info(msg) *)
| Open (p : PurePath)       (* load_manifest_lazy(p) *)
| ReadFirst (p : PurePath)  (* the loader reads the first record of p *)
| Count (p : PurePath).     (* len(c) on the lazy handle of p *)

Global Instance Event_eq_dec : EqDecision Event.
Proof. solve_decision. Defined.

(** The result of running a piece of the program: how it ended, the next
    unused object identity, and the calls it made. *)
Record Run (A : Type) := mkRun {
  outcome : Outcome A;
  next_oid : nat;
  trace : list Event
}.
Arguments mkRun {A} outcome next_oid trace.
Arguments outcome {A} r.
Arguments next_oid {A} r.
Arguments trace {A} r.

Definition M (A : Type) : Type := World -> nat -> Run A.

Definition ret {A} (a : A) : M A :=
  fun _ n => mkRun (Returned a) n [].

Definition raise {A} (e : Exception) : M A :=
  fun _ n => mkRun (Raised e) n [].

Definition bind {A B} (m : M A) (k : A -> M B) : M B :=
  fun w n =>
    match m w n with
    | mkRun (Returned a) n1 t1 =>
        match k a w n1 with
        | mkRun o n2 t2 => mkRun o n2 (t1 ++ t2)
        end
    | mkRun (Raised e) n1 t1 => mkRun (Raised e) n1 t1
    end.

Declare Scope py_scope.
Delimit Scope py_scope with py.
Notation "x <- m ;; k" := (bind m (fun x => k))
  (at level 100, m at next level, right associativity) : py_scope.
Notation "m ;; k" := (bind m (fun _ => k))
  (at level 100, right associativity) : py_scope.
Open Scope py_scope.

Definition emit (e : Event) : M unit :=
  fun _ n => mkRun (Returned tt) n [e].

Definition new_object : M nat :=
  fun _ n => mkRun (Returned n) (S n) [].

Definition ask : M World :=
  fun w n => mkRun (Returned w) n [].

(** [for x in l: acc = body(x, acc)] *)
Fixpoint for_each {A S} (l : list A) (body : A -> S -> M S) (acc : S) : M S :=
  match l with
  | [] => ret acc
  | x :: l' => acc' <- body x acc ;; for_each l' body acc'
  end.

(** ** The foreign operations *)

Definition logging_info (msg : string) : M unit := emit (Log msg).

(** Reading the records of the manifest at [p]. *)
Definition load_jsonl (w : World) (p : PurePath) : Outcome (list Cut) :=
  match manifest w p with
  | Some cuts => Returned cuts
  | None => Raised (FileNotFoundError p)
  end.

(** [load_manifest_lazy(p)].  [lhotse]'s loader reads the first record to
    learn what the manifest holds: it raises when the file is absent,
    answers [None] when the file holds no record, and otherwise makes a
    lazy handle; the rest of the file is not read.  The deferring loader
    makes a handle without looking at the file. *)
Definition load_manifest_lazy (p : PurePath) : M CutSet :=
  emit (Open p) ;;
  w <- ask ;;
  if opens_eagerly w
  then match manifest w p with
       | None => raise (FileNotFoundError p)
       | Some [] => emit (ReadFirst p) ;; ret PyNone
       | Some (_ :: _) =>
           emit (ReadFirst p) ;; oid <- new_object ;; ret (LazyCuts oid p)
       end
  else oid <- new_object ;; ret (LazyCuts oid p).

(** [len(c)].  A lazy handle holds no record, so its length is found by
    reading the manifest through, and that fails when the file is absent;
    [None] has no length.  The program takes [len] of what
    [load_manifest_lazy] answered only; for a multiplexer the length is
    the sum of its sources'. *)
Fixpoint len (c : CutSet) : M nat :=
  match c with
  | LazyCuts _ p =>
      emit (Count p) ;;
      w <- ask ;;
      match load_jsonl w p with
      | Returned cuts => ret (length cuts)
      | Raised e => raise e
      end
  | MuxCuts _ srcs _ =>
      (fix sum_len (l : list CutSet) : M nat :=
         match l with
         | [] => ret 0
         | s :: l' => a <- len s ;; b <- sum_len l' ;; ret (a + b)
         end) srcs
  | PyNone => raise TypeError
  end.

(** [CutSet.mux] applied to the sources and [weights=weights]: a new lazy
    multiplexer over the sources; nothing is read. *)
Definition CutSet_mux (cuts : list CutSet) (weights : list nat) : M CutSet :=
  oid <- new_object ;; ret (MuxCuts oid cuts weights).

(** Iterating what an accessor handed back.  A lazy manifest handle yields
    the records of its file, or raises when the file is absent; [None] is
    not iterable.  The order in which a multiplexer draws from its sources
    is the library's sampler and is not described here. *)
Definition iterate (w : World) (c : CutSet) : option (Outcome (list Cut)) :=
  match c with
  | LazyCuts _ p => Some (load_jsonl w p)
  | MuxCuts _ _ _ => None
  | PyNone => Some (Raised TypeError)
  end.

(** ** Python built-ins used by [speechio_test_cuts] *)

(** [range(a, b)] *)
Definition range (a b : nat) : list nat := seq a (b - a).

Definition is_sign (c : ascii) : bool :=
  bool_decide (c = "+"%char) || bool_decide (c = "-"%char).

Fixpoint zeros (k : nat) : string :=
  match k with
  | 0 => EmptyString
  | S k' => String "0" (zeros k')
  end.

(** [len(s)] of a [str], held here as its UTF-8 bytes: the code points
    are the bytes that do not continue a character. *)
Definition continues_character (c : ascii) : bool :=
  ((128 <=? nat_of_ascii c) && (nat_of_ascii c <? 192))%nat.

Fixpoint str_len (s : string) : nat :=
  match s with
  | EmptyString => 0
  | String c r => (if continues_character c then 0 else 1) + str_len r
  end.

(** [s.zfill(width)]: pad with zeros on the left, after a leading sign. *)
Definition zfill (width : nat) (s : string) : string :=
  let fill := zeros (width - str_len s) in
  match s with
  | String c rest => if is_sign c then String c (fill +:+ rest) else fill +:+ s
  | EmptyString => fill
  end.

(** [f"{i}"] for an integer [i >= 0] *)
Definition format_int (i : nat) : string := pretty i.

(** ** The class [MultiDataset] *)

Module MultiDataset.

Record t := mk { fbank_dir : PurePath }.


Definition train_cuts (self : t) : M CutSet :=
  logging_info "About to get multidataset train cuts" ;;
  (* THCHS-30 *)
  logging_info "Loading THCHS-30 in lazy mode" ;;
  thchs_30_cuts <- load_manifest_lazy
    (fbank_dir self </> "thchs_30_cuts_train.jsonl.gz") ;;
  (* AISHELL-1 *)
  logging_info "Loading Aishell-1 in lazy mode" ;;
  aishell_cuts <- load_manifest_lazy
    (fbank_dir self </> "aishell_cuts_train.jsonl.gz") ;;
  (* AISHELL-2 *)
  logging_info "Loading Aishell-2 in lazy mode" ;;
  aishell_2_cuts <- load_manifest_lazy
    (fbank_dir self </> "aishell2_cuts_train.jsonl.gz") ;;
  (* AISHELL-4 *)
  logging_info "Loading Aishell-4 in lazy mode" ;;
  aishell_4_L_cuts <- load_manifest_lazy
    (fbank_dir self </> "aishell4_cuts_train_L.jsonl.gz") ;;
  aishell_4_M_cuts <- load_manifest_lazy
    (fbank_dir self </> "aishell4_cuts_train_M.jsonl.gz") ;;
  aishell_4_S_cuts <- load_manifest_lazy
    (fbank_dir self </> "aishell4_cuts_train_S.jsonl.gz") ;;
  (* ST-CMDS *)
  logging_info "Loading ST-CMDS in lazy mode" ;;
  stcmds_cuts <- load_manifest_lazy
    (fbank_dir self </> "stcmds_cuts_train.jsonl.gz") ;;
  (* Primewords *)
  logging_info "Loading Primewords in lazy mode" ;;
  primewords_cuts <- load_manifest_lazy
    (fbank_dir self </> "primewords_cuts_train.jsonl.gz") ;;
  (* MagicData *)
  logging_info "Loading MagicData in lazy mode" ;;
  magicdata_cuts <- load_manifest_lazy
    (fbank_dir self </> "magicdata_cuts_train.jsonl.gz") ;;
  (* Ali-Meeting *)
  logging_info "Loading Ali-Meeting in lazy mode" ;;
  alimeeting_cuts <- load_manifest_lazy
    (fbank_dir self </> "alimeeting-far_cuts_train.jsonl.gz") ;;
  (* WeNetSpeech *)
  logging_info "Loading WeNetSpeech in lazy mode" ;;
  wenetspeech_L_cuts <- load_manifest_lazy
    (fbank_dir self </> "wenetspeech" </> "cuts_L_fixed.jsonl.gz") ;;
  (* KeSpeech *)
  logging_info "Loading KeSpeech in lazy mode" ;;
  kespeech_1_cuts <- load_manifest_lazy
    (fbank_dir self </> "kespeech" </> "kespeech-asr_cuts_train_phase1.jsonl.gz") ;;
  kespeech_2_cuts <- load_manifest_lazy
    (fbank_dir self </> "kespeech" </> "kespeech-asr_cuts_train_phase2.jsonl.gz") ;;
  (* the positional arguments are already values; the elements of the
     [weights] list are evaluated left to right *)
  w1 <- len thchs_30_cuts ;;
  w2 <- len aishell_cuts ;;
  w3 <- len aishell_2_cuts ;;
  w4 <- len aishell_4_L_cuts ;;
  w5 <- len aishell_4_M_cuts ;;
  w6 <- len aishell_4_S_cuts ;;
  w7 <- len alimeeting_cuts ;;
  w8 <- len stcmds_cuts ;;
  w9 <- len primewords_cuts ;;
  w10 <- len magicdata_cuts ;;
  w11 <- len wenetspeech_L_cuts ;;
  w12 <- len kespeech_1_cuts ;;
  w13 <- len kespeech_2_cuts ;;
  CutSet_mux
    [ thchs_30_cuts;
      aishell_cuts;
      aishell_2_cuts;
      aishell_4_L_cuts;
      aishell_4_M_cuts;
      aishell_4_S_cuts;
      alimeeting_cuts;
      stcmds_cuts;
      primewords_cuts;
      magicdata_cuts;
      wenetspeech_L_cuts;
      kespeech_1_cuts;
      kespeech_2_cuts ]
    [ w1; w2; w3; w4; w5; w6; w7; w8; w9; w10; w11; w12; w13 ].

Definition dev_cuts (self : t) : M CutSet :=
  logging_info "About to get multidataset dev cuts" ;;
  (* WeNetSpeech *)
  logging_info "Loading WeNetSpeech DEV set in lazy mode" ;;
  wenetspeech_dev_cuts <- load_manifest_lazy
    (fbank_dir self </> "wenetspeech" </> "cuts_DEV_fixed.jsonl.gz") ;;
  ret wenetspeech_dev_cuts.

Definition test_cuts (self : t) : M (gmap string CutSet) :=
  logging_info "About to get multidataset test cuts" ;;
  (* AISHELL *)
  logging_info "Loading Aishell set in lazy mode" ;;
  aishell_test_cuts <- load_manifest_lazy
    (fbank_dir self </> "aishell_cuts_test.jsonl.gz") ;;
  aishell_dev_cuts <- load_manifest_lazy
    (fbank_dir self </> "aishell_cuts_dev.jsonl.gz") ;;
  (* AISHELL-2 *)
  logging_info "Loading Aishell-2 set in lazy mode" ;;
  aishell2_test_cuts <- load_manifest_lazy
    (fbank_dir self </> "aishell2_cuts_test.jsonl.gz") ;;
  aishell2_dev_cuts <- load_manifest_lazy
    (fbank_dir self </> "aishell2_cuts_dev.jsonl.gz") ;;
  (* AISHELL-4 *)
  logging_info "Loading Aishell-4 TEST set in lazy mode" ;;
  aishell4_test_cuts <- load_manifest_lazy
    (fbank_dir self </> "aishell4_cuts_test.jsonl.gz") ;;
  (* Ali-Meeting *)
  logging_info "Loading Ali-Meeting set in lazy mode" ;;
  alimeeting_test_cuts <- load_manifest_lazy
    (fbank_dir self </> "alimeeting-far_cuts_test.jsonl.gz") ;;
  alimeeting_eval_cuts <- load_manifest_lazy
    (fbank_dir self </> "alimeeting-far_cuts_eval.jsonl.gz") ;;
  (* MagicData *)
  logging_info "Loading MagicData set in lazy mode" ;;
  magicdata_test_cuts <- load_manifest_lazy
    (fbank_dir self </> "magicdata_cuts_test.jsonl.gz") ;;
  magicdata_dev_cuts <- load_manifest_lazy
    (fbank_dir self </> "magicdata_cuts_dev.jsonl.gz") ;;
  (* KeSpeech *)
  logging_info "Loading KeSpeech set in lazy mode" ;;
  kespeech_test_cuts <- load_manifest_lazy
    (fbank_dir self </> "kespeech" </> "kespeech-asr_cuts_test.jsonl.gz") ;;
  kespeech_dev_phase1_cuts <- load_manifest_lazy
    (fbank_dir self </> "kespeech" </> "kespeech-asr_cuts_dev_phase1.jsonl.gz") ;;
  kespeech_dev_phase2_cuts <- load_manifest_lazy
    (fbank_dir self </> "kespeech" </> "kespeech-asr_cuts_dev_phase2.jsonl.gz") ;;
  (* WeNetSpeech *)
  logging_info "Loading WeNetSpeech set in lazy mode" ;;
  wenetspeech_test_meeting_cuts <- load_manifest_lazy
    (fbank_dir self </> "wenetspeech" </> "cuts_TEST_MEETING.jsonl.gz") ;;
  wenetspeech_test_net_cuts <- load_manifest_lazy
    (fbank_dir self </> "wenetspeech" </> "cuts_TEST_NET.jsonl.gz") ;;
  wenetspeech_dev_cuts <- load_manifest_lazy
    (fbank_dir self </> "wenetspeech" </> "cuts_DEV_fixed.jsonl.gz") ;;
  ret (<["wenetspeech_dev" := wenetspeech_dev_cuts]>
      (<["wenetspeech-net_test" := wenetspeech_test_net_cuts]>
      (<["kespeech-asr_dev_phase2" := kespeech_dev_phase2_cuts]>
      (<["kespeech-asr_dev_phase1" := kespeech_dev_phase1_cuts]>
      (<["kespeech-asr_test" := kespeech_test_cuts]>
      (<["magicdata_dev" := magicdata_dev_cuts]>
      (<["magicdata_test" := magicdata_test_cuts]>
      (<["aishell-2_dev" := aishell2_dev_cuts]>
      (<["aishell-2_test" := aishell2_test_cuts]>
      (<["aishell-4_test" := aishell4_test_cuts]>
      (<["ali-meeting_eval" := alimeeting_eval_cuts]>
      (<["ali-meeting_test" := alimeeting_test_cuts]>
      (<["aishell_dev" := aishell_dev_cuts]>
      (<["aishell_test" := aishell_test_cuts]>
      (<["wenetspeech-meeting_test" := wenetspeech_test_meeting_cuts]>
       (∅ : gmap string CutSet)))))))))))))))).

Definition aishell_train_cuts (self : t) : M CutSet :=
  logging_info "About to get multidataset train cuts" ;;
  logging_info "Loading Aishell-1 in lazy mode" ;;
  aishell_cuts <- load_manifest_lazy
    (fbank_dir self </> "aishell_cuts_train.jsonl.gz") ;;
  ret aishell_cuts.

Definition aishell_dev_cuts (self : t) : M CutSet :=
  logging_info "About to get multidataset dev cuts" ;;
  logging_info "Loading Aishell set in lazy mode" ;;
  aishell_dev_cuts <- load_manifest_lazy
    (fbank_dir self </> "aishell_cuts_dev.jsonl.gz") ;;
  ret aishell_dev_cuts.

Definition aishell_test_cuts (self : t) : M (gmap string CutSet) :=
  logging_info "About to get multidataset test cuts" ;;
  logging_info "Loading Aishell set in lazy mode" ;;
  aishell_test_cuts <- load_manifest_lazy
    (fbank_dir self </> "aishell_cuts_test.jsonl.gz") ;;
  ret (<["aishell_test" := aishell_test_cuts]> (∅ : gmap string CutSet)).

Definition aishell2_train_cuts (self : t) : M CutSet :=
  logging_info "About to get multidataset train cuts" ;;
  logging_info "Loading Aishell-2 in lazy mode" ;;
  aishell_2_cuts <- load_manifest_lazy
    (fbank_dir self </> "aishell2_cuts_train.jsonl.gz") ;;
  ret aishell_2_cuts.

Definition aishell2_dev_cuts (self : t) : M CutSet :=
  logging_info "About to get multidataset dev cuts" ;;
  logging_info "Loading Aishell-2 set in lazy mode" ;;
  aishell2_dev_cuts <- load_manifest_lazy
    (fbank_dir self </> "aishell2_cuts_dev.jsonl.gz") ;;
  ret aishell2_dev_cuts.

Definition aishell2_test_cuts (self : t) : M (gmap string CutSet) :=
  logging_info "About to get multidataset test cuts" ;;
  logging_info "Loading Aishell-2 set in lazy mode" ;;
  aishell2_test_cuts <- load_manifest_lazy
    (fbank_dir self </> "aishell2_cuts_test.jsonl.gz") ;;
  ret (<["aishell2_test" := aishell2_test_cuts]> (∅ : gmap string CutSet)).

Definition wenetspeech_test_meeting_cuts (self : t) : M (gmap string CutSet) :=
  logging_info "About to get multidataset test cuts" ;;
  logging_info "Loading WeNetSpeech set in lazy mode" ;;
  wenetspeech_test_meeting_cuts <- load_manifest_lazy
    (fbank_dir self </> "wenetspeech" </> "cuts_TEST_MEETING.jsonl.gz") ;;
  ret (<["wenetspeech-meeting_test" := wenetspeech_test_meeting_cuts]>
       (∅ : gmap string CutSet)).

Definition start_index : nat := 0.
Definition end_index : nat := 26.

(** The first loop of [speechio_test_cuts]. *)
Definition dataset_parts : list string :=
  fold_left
    (fun (parts : list string) (i : nat) =>
       let idx := zfill 2 (format_int i) in
       (parts ++ ["SPEECHIO_ASR_ZH000" +:+ idx])%list)
    (range start_index (end_index + 1))
    [].

Definition speechio_test_cuts (self : t) : M (gmap string CutSet) :=
  logging_info "About to get multidataset test cuts" ;;
  let prefix := "speechio" in
  let suffix := "jsonl.gz" in
  for_each dataset_parts
    (fun partition results_dict =>
       let path := prefix +:+ "_cuts_" +:+ partition +:+ "." +:+ suffix in
       logging_info ("Loading " +:+ path +:+ " set in lazy mode") ;;
       test_cuts <- load_manifest_lazy (fbank_dir self </> path) ;;
       ret (<[partition := test_cuts]> results_dict))
    (∅ : gmap string CutSet).

End MultiDataset.

Import MultiDataset.

(** ** Calling an accessor by name *)

(** What an accessor hands back: a bare collection or a dictionary from
    partition name to collection. *)
Inductive Value :=
| VCuts (c : CutSet)
| VDict (d : gmap string CutSet).

Inductive Accessor :=
| Train | Dev | Test
| AishellTrain | AishellDev | AishellTest
| Aishell2Train | Aishell2Dev | Aishell2Test
| WenetspeechTestMeeting
| SpeechioTest.

Global Instance Accessor_eq_dec : EqDecision Accessor.
Proof. solve_decision. Defined.

Definition call (a : Accessor) (self : t) : M Value :=
  match a with
  | Train => c <- train_cuts self ;; ret (VCuts c)
  | Dev => c <- dev_cuts self ;; ret (VCuts c)
  | Test => d <- test_cuts self ;; ret (VDict d)
  | AishellTrain => c <- aishell_train_cuts self ;; ret (VCuts c)
  | AishellDev => c <- aishell_dev_cuts self ;; ret (VCuts c)
  | AishellTest => d <- aishell_test_cuts self ;; ret (VDict d)
  | Aishell2Train => c <- aishell2_train_cuts self ;; ret (VCuts c)
  | Aishell2Dev => c <- aishell2_dev_cuts self ;; ret (VCuts c)
  | Aishell2Test => d <- aishell2_test_cuts self ;; ret (VDict d)
  | WenetspeechTestMeeting => d <- wenetspeech_test_meeting_cuts self ;; ret (VDict d)
  | SpeechioTest => d <- speechio_test_cuts self ;; ret (VDict d)
  end.

(** ** Observations on runs and values *)

(** The paths handed to [load_manifest_lazy], in call order. *)
Definition opened (tr : list Event) : list PurePath :=
  omap (fun e => match e with Open p => Some p | _ => None end) tr.

(** The paths of which the loader read the first record, in call order. *)
Definition first_reads (tr : list Event) : list PurePath :=
  omap (fun e => match e with ReadFirst p => Some p | _ => None end) tr.

(** The paths whose manifest was read through by [len], in call order. *)
Definition counted (tr : list Event) : list PurePath :=
  omap (fun e => match e with Count p => Some p | _ => None end) tr.

(** The file behind a lazy handle. *)
Definition path_of (c : CutSet) : option PurePath :=
  match c with
  | LazyCuts _ p => Some p
  | MuxCuts _ _ _ => None
  | PyNone => None
  end.

(** The number of records of a collection: what [len] answers, when it
    answers. *)
Definition cardinality (w : World) (c : CutSet) : option nat :=
  match outcome (len c w 0) with
  | Returned k => Some k
  | Raised _ => None
  end.

(** The identity of every object created for a collection; [None] is
    not one of them. *)
Fixpoint oids (c : CutSet) : list nat :=
  match c with
  | LazyCuts oid _ => [oid]
  | MuxCuts oid srcs _ => oid :: flat_map oids srcs
  | PyNone => []
  end.

Definition value_oids (v : Value) : list nat :=
  match v with
  | VCuts c => oids c
  | VDict d => flat_map (fun kc => oids kc.2) (map_to_list d)
  end.

(** A collection without the identities of its objects: which files it
    draws from, combined how. *)
Inductive Contents :=
| FromManifest (p : PurePath)
| WeightedUnion (srcs : list Contents) (weights : list nat)
| Nothing.

Fixpoint contents (c : CutSet) : Contents :=
  match c with
  | LazyCuts _ p => FromManifest p
  | MuxCuts _ srcs ws => WeightedUnion (map contents srcs) ws
  | PyNone => Nothing
  end.

Inductive ValueContents :=
| CCuts (c : Contents)
| CDict (d : gmap string Contents).

Definition value_contents (v : Value) : ValueContents :=
  match v with
  | VCuts c => CCuts (contents c)
  | VDict d => CDict (contents <$> d)
  end.

(** ** The catalogs *)

(** The training manifests, in the order [train_cuts] passes them to
    [CutSet.mux]. *)
Definition train_manifests (root : PurePath) : list PurePath :=
  [ root </> "thchs_30_cuts_train.jsonl.gz";
    root </> "aishell_cuts_train.jsonl.gz";
    root </> "aishell2_cuts_train.jsonl.gz";
    root </> "aishell4_cuts_train_L.jsonl.gz";
    root </> "aishell4_cuts_train_M.jsonl.gz";
    root </> "aishell4_cuts_train_S.jsonl.gz";
    root </> "alimeeting-far_cuts_train.jsonl.gz";
    root </> "stcmds_cuts_train.jsonl.gz";
    root </> "primewords_cuts_train.jsonl.gz";
    root </> "magicdata_cuts_train.jsonl.gz";
    root </> "wenetspeech" </> "cuts_L_fixed.jsonl.gz";
    root </> "kespeech" </> "kespeech-asr_cuts_train_phase1.jsonl.gz";
    root </> "kespeech" </> "kespeech-asr_cuts_train_phase2.jsonl.gz" ].

(** The partitions of [test_cuts] and the file of each. *)
Definition test_manifests (root : PurePath) : list (string * PurePath) :=
  [ ("wenetspeech-meeting_test", root </> "wenetspeech" </> "cuts_TEST_MEETING.jsonl.gz");
    ("aishell_test", root </> "aishell_cuts_test.jsonl.gz");
    ("aishell_dev", root </> "aishell_cuts_dev.jsonl.gz");
    ("ali-meeting_test", root </> "alimeeting-far_cuts_test.jsonl.gz");
    ("ali-meeting_eval", root </> "alimeeting-far_cuts_eval.jsonl.gz");
    ("aishell-4_test", root </> "aishell4_cuts_test.jsonl.gz");
    ("aishell-2_test", root </> "aishell2_cuts_test.jsonl.gz");
    ("aishell-2_dev", root </> "aishell2_cuts_dev.jsonl.gz");
    ("magicdata_test", root </> "magicdata_cuts_test.jsonl.gz");
    ("magicdata_dev", root </> "magicdata_cuts_dev.jsonl.gz");
    ("kespeech-asr_test", root </> "kespeech" </> "kespeech-asr_cuts_test.jsonl.gz");
    ("kespeech-asr_dev_phase1", root </> "kespeech" </> "kespeech-asr_cuts_dev_phase1.jsonl.gz");
    ("kespeech-asr_dev_phase2", root </> "kespeech" </> "kespeech-asr_cuts_dev_phase2.jsonl.gz");
    ("wenetspeech-net_test", root </> "wenetspeech" </> "cuts_TEST_NET.jsonl.gz");
    ("wenetspeech_dev", root </> "wenetspeech" </> "cuts_DEV_fixed.jsonl.gz") ].

(** A number below 100 written with exactly two decimal digits. *)
Definition digit (d : nat) : ascii := ascii_of_nat (48 + d).
Definition two_digits (i : nat) : string :=
  String (digit (i / 10)) (String (digit (i mod 10)) EmptyString).

(** Partition [i] of SpeechIO and its file. *)
Definition speechio_partition (i : nat) : string :=
  "SPEECHIO_ASR_ZH000" +:+ two_digits i.
Definition speechio_manifest (root : PurePath) (i : nat) : PurePath :=
  root </> ("speechio_cuts_" +:+ speechio_partition i +:+ ".jsonl.gz").

(** The 15 partition names of [test_cuts]. *)
Definition test_partitions : list string :=
  [ "wenetspeech-meeting_test"; "aishell_test"; "aishell_dev";
    "ali-meeting_test"; "ali-meeting_eval"; "aishell-4_test";
    "aishell-2_test"; "aishell-2_dev"; "magicdata_test"; "magicdata_dev";
    "kespeech-asr_test"; "kespeech-asr_dev_phase1"; "kespeech-asr_dev_phase2";
    "wenetspeech-net_test"; "wenetspeech_dev" ].

(** The file names of the 27 SpeechIO partitions, written out. *)
Definition speechio_files : list string :=
  Eval vm_compute in
    map (fun i => "speechio_cuts_" +:+ speechio_partition i +:+ ".jsonl.gz")
        (seq 0 27).

Definition speechio_partitions : list string :=
  Eval vm_compute in map speechio_partition (seq 0 27).

(** The partitions an accessor that answers with a dictionary names, each
    with its file; empty for the accessors that answer with a bare
    collection. *)
Definition partitions_of (a : Accessor) (root : PurePath) : list (string * PurePath) :=
  match a with
  | Test => test_manifests root
  | AishellTest => [("aishell_test", root </> "aishell_cuts_test.jsonl.gz")]
  | Aishell2Test => [("aishell2_test", root </> "aishell2_cuts_test.jsonl.gz")]
  | WenetspeechTestMeeting =>
      [("wenetspeech-meeting_test", root </> "wenetspeech" </> "cuts_TEST_MEETING.jsonl.gz")]
  | SpeechioTest => zip speechio_partitions (joinpath root <$> speechio_files)
  | _ => []
  end.

(** The manifests an accessor names. *)
Definition listed (a : Accessor) (self : t) : list PurePath :=
  let root := fbank_dir self in
  match a with
  | Train => train_manifests root
  | Dev => [root </> "wenetspeech" </> "cuts_DEV_fixed.jsonl.gz"]
  | AishellTrain => [root </> "aishell_cuts_train.jsonl.gz"]
  | AishellDev => [root </> "aishell_cuts_dev.jsonl.gz"]
  | Aishell2Train => [root </> "aishell2_cuts_train.jsonl.gz"]
  | Aishell2Dev => [root </> "aishell2_cuts_dev.jsonl.gz"]
  | _ => (partitions_of a root).*2
  end.

(** The manifests an accessor opens, in the order it opens them. *)
Definition opens_of (a : Accessor) (self : t) : list PurePath :=
  let root := fbank_dir self in
  match a with
  | Train =>
      [ root </> "thchs_30_cuts_train.jsonl.gz";
        root </> "aishell_cuts_train.jsonl.gz";
        root </> "aishell2_cuts_train.jsonl.gz";
        root </> "aishell4_cuts_train_L.jsonl.gz";
        root </> "aishell4_cuts_train_M.jsonl.gz";
        root </> "aishell4_cuts_train_S.jsonl.gz";
        root </> "stcmds_cuts_train.jsonl.gz";
        root </> "primewords_cuts_train.jsonl.gz";
        root </> "magicdata_cuts_train.jsonl.gz";
        root </> "alimeeting-far_cuts_train.jsonl.gz";
        root </> "wenetspeech" </> "cuts_L_fixed.jsonl.gz";
        root </> "kespeech" </> "kespeech-asr_cuts_train_phase1.jsonl.gz";
        root </> "kespeech" </> "kespeech-asr_cuts_train_phase2.jsonl.gz" ]
  | Test =>
      [ root </> "aishell_cuts_test.jsonl.gz";
        root </> "aishell_cuts_dev.jsonl.gz";
        root </> "aishell2_cuts_test.jsonl.gz";
        root </> "aishell2_cuts_dev.jsonl.gz";
        root </> "aishell4_cuts_test.jsonl.gz";
        root </> "alimeeting-far_cuts_test.jsonl.gz";
        root </> "alimeeting-far_cuts_eval.jsonl.gz";
        root </> "magicdata_cuts_test.jsonl.gz";
        root </> "magicdata_cuts_dev.jsonl.gz";
        root </> "kespeech" </> "kespeech-asr_cuts_test.jsonl.gz";
        root </> "kespeech" </> "kespeech-asr_cuts_dev_phase1.jsonl.gz";
        root </> "kespeech" </> "kespeech-asr_cuts_dev_phase2.jsonl.gz";
        root </> "wenetspeech" </> "cuts_TEST_MEETING.jsonl.gz";
        root </> "wenetspeech" </> "cuts_TEST_NET.jsonl.gz";
        root </> "wenetspeech" </> "cuts_DEV_fixed.jsonl.gz" ]
  | _ => listed a self
  end.

(** Every object of [v] was created with an identity in [lo, hi). *)
Definition oids_within (lo hi : nat) (v : Value) : Prop :=
  match v with
  | VCuts c => Forall (fun i => lo <= i < hi) (oids c)
  | VDict d => map_Forall (fun _ c => Forall (fun i => lo <= i < hi) (oids c)) d
  end.

Definition all_openable (w : World) (ps : list PurePath) : bool :=
  forallb (openable w) ps.

Definition all_present (w : World) (ps : list PurePath) : bool :=
  forallb (present w) ps.

Definition all_nonempty (w : World) (ps : list PurePath) : bool :=
  forallb (nonempty w) ps.

(** The manifest at [p] is there and holds no record. *)
Definition is_empty (w : World) (p : PurePath) : bool :=
  match manifest w p with Some [] => true | _ => false end.

(** The manifest at [p] is not there. *)
Definition absent (w : World) (p : PurePath) : bool := negb (present w p).

(** What opening [p] gives, identities aside: [None] for a manifest
    without records under a loader that looks, a handle otherwise. *)
Definition entry (w : World) (p : PurePath) : Contents :=
  if opens_eagerly w && is_empty w p then Nothing else FromManifest p.

(** The number of records of the manifest at [p] (0 when it is absent). *)
Definition records (w : World) (p : PurePath) : nat :=
  match manifest w p with
  | Some cuts => length cuts
  | None => 0
  end.

(** What an accessor answers, identities aside, when it answers. *)
Definition answer (a : Accessor) (self : t) (w : World) : ValueContents :=
  let root := fbank_dir self in
  match a with
  | Train =>
      CCuts (WeightedUnion (FromManifest <$> train_manifests root)
                           (records w <$> train_manifests root))
  | Dev | AishellTrain | AishellDev | Aishell2Train | Aishell2Dev =>
      match listed a self with
      | [p] => CCuts (entry w p)
      | _ => CDict ∅
      end
  | _ => CDict (entry w <$> list_to_map (partitions_of a root))
  end.

(** The accessors that answer with a dictionary. *)
Definition returns_dict (a : Accessor) : bool :=
  match a with
  | Test | AishellTest | Aishell2Test | WenetspeechTestMeeting | SpeechioTest => true
  | _ => false
  end.

(** [v] is, or has among its entries, the handle [c]. *)
Definition holds (v : Value) (c : CutSet) : Prop :=
  match v with
  | VCuts c' => c' = c
  | VDict d => exists k, d !! k = Some c
  end.

(** The file names below the root of a path built from [root]. *)
Definition below (root p : PurePath) : list string :=
  drop (length (parts root)) (parts p).

(** ** The shape the accessors share *)

(** Every accessor logs one line, then goes through its manifests: it
    logs the lines that announce a corpus and opens the manifest; and
    then it makes its answer out of what the opens gave.  The definitions
    below say this once, for a list of manifests; the accessors above
    are this shape written out. *)
Record Step := mkStep { announce : list string; file : PurePath }.

Fixpoint log_then {A} (msgs : list string) (k : M A) : M A :=
  match msgs with
  | [] => k
  | msg :: msgs' => logging_info msg ;; log_then msgs' k
  end.

Fixpoint open_all {A} (steps : list Step) (k : list CutSet -> M A) : M A :=
  match steps with
  | [] => k []
  | s :: steps' =>
      log_then (announce s)
        (c <- load_manifest_lazy (file s) ;;
         open_all steps' (fun cs => k (c :: cs)))
  end.

(** [[len(c) for c in cs]] *)
Fixpoint len_all {A} (cs : list CutSet) (k : list nat -> M A) : M A :=
  match cs with
  | [] => k []
  | c :: cs' => x <- len c ;; len_all cs' (fun xs => k (x :: xs))
  end.

(** [train_cuts] opens Ali-Meeting after MagicData and passes it to
    [CutSet.mux] before ST-CMDS: from the order of opening to the order of
    the union. *)
Definition mux_order {A} (l : list A) : list A :=
  match l with
  | [a1; a2; a3; a4; a5; a6; a7; a8; a9; a10; a11; a12; a13] =>
      [a1; a2; a3; a4; a5; a6; a10; a7; a8; a9; a11; a12; a13]
  | _ => l
  end.

(** The first line an accessor logs. *)
Definition prelude (a : Accessor) : string :=
  match a with
  | Train | AishellTrain | Aishell2Train => "About to get multidataset train cuts"
  | Dev | AishellDev | Aishell2Dev => "About to get multidataset dev cuts"
  | _ => "About to get multidataset test cuts"
  end.

Definition speechio_step (root : PurePath) (partition : string) : Step :=
  let path := "speechio" +:+ "_cuts_" +:+ partition +:+ "." +:+ "jsonl.gz" in
  mkStep ["Loading " +:+ path +:+ " set in lazy mode"] (root </> path).

(** The manifests an accessor opens, in order, each with the lines
    logged before it. *)
Definition steps_of (a : Accessor) (self : t) : list Step :=
  let root := fbank_dir self in
  match a with
  | Train =>
      [ mkStep ["Loading THCHS-30 in lazy mode"]
          (root </> "thchs_30_cuts_train.jsonl.gz");
        mkStep ["Loading Aishell-1 in lazy mode"]
          (root </> "aishell_cuts_train.jsonl.gz");
        mkStep ["Loading Aishell-2 in lazy mode"]
          (root </> "aishell2_cuts_train.jsonl.gz");
        mkStep ["Loading Aishell-4 in lazy mode"]
          (root </> "aishell4_cuts_train_L.jsonl.gz");
        mkStep [] (root </> "aishell4_cuts_train_M.jsonl.gz");
        mkStep [] (root </> "aishell4_cuts_train_S.jsonl.gz");
        mkStep ["Loading ST-CMDS in lazy mode"]
          (root </> "stcmds_cuts_train.jsonl.gz");
        mkStep ["Loading Primewords in lazy mode"]
          (root </> "primewords_cuts_train.jsonl.gz");
        mkStep ["Loading MagicData in lazy mode"]
          (root </> "magicdata_cuts_train.jsonl.gz");
        mkStep ["Loading Ali-Meeting in lazy mode"]
          (root </> "alimeeting-far_cuts_train.jsonl.gz");
        mkStep ["Loading WeNetSpeech in lazy mode"]
          (root </> "wenetspeech" </> "cuts_L_fixed.jsonl.gz");
        mkStep ["Loading KeSpeech in lazy mode"]
          (root </> "kespeech" </> "kespeech-asr_cuts_train_phase1.jsonl.gz");
        mkStep [] (root </> "kespeech" </> "kespeech-asr_cuts_train_phase2.jsonl.gz") ]
  | Dev =>
      [ mkStep ["Loading WeNetSpeech DEV set in lazy mode"]
          (root </> "wenetspeech" </> "cuts_DEV_fixed.jsonl.gz") ]
  | Test =>
      [ mkStep ["Loading Aishell set in lazy mode"]
          (root </> "aishell_cuts_test.jsonl.gz");
        mkStep [] (root </> "aishell_cuts_dev.jsonl.gz");
        mkStep ["Loading Aishell-2 set in lazy mode"]
          (root </> "aishell2_cuts_test.jsonl.gz");
        mkStep [] (root </> "aishell2_cuts_dev.jsonl.gz");
        mkStep ["Loading Aishell-4 TEST set in lazy mode"]
          (root </> "aishell4_cuts_test.jsonl.gz");
        mkStep ["Loading Ali-Meeting set in lazy mode"]
          (root </> "alimeeting-far_cuts_test.jsonl.gz");
        mkStep [] (root </> "alimeeting-far_cuts_eval.jsonl.gz");
        mkStep ["Loading MagicData set in lazy mode"]
          (root </> "magicdata_cuts_test.jsonl.gz");
        mkStep [] (root </> "magicdata_cuts_dev.jsonl.gz");
        mkStep ["Loading KeSpeech set in lazy mode"]
          (root </> "kespeech" </> "kespeech-asr_cuts_test.jsonl.gz");
        mkStep [] (root </> "kespeech" </> "kespeech-asr_cuts_dev_phase1.jsonl.gz");
        mkStep [] (root </> "kespeech" </> "kespeech-asr_cuts_dev_phase2.jsonl.gz");
        mkStep ["Loading WeNetSpeech set in lazy mode"]
          (root </> "wenetspeech" </> "cuts_TEST_MEETING.jsonl.gz");
        mkStep [] (root </> "wenetspeech" </> "cuts_TEST_NET.jsonl.gz");
        mkStep [] (root </> "wenetspeech" </> "cuts_DEV_fixed.jsonl.gz") ]
  | AishellTrain =>
      [ mkStep ["Loading Aishell-1 in lazy mode"]
          (root </> "aishell_cuts_train.jsonl.gz") ]
  | AishellDev =>
      [ mkStep ["Loading Aishell set in lazy mode"]
          (root </> "aishell_cuts_dev.jsonl.gz") ]
  | AishellTest =>
      [ mkStep ["Loading Aishell set in lazy mode"]
          (root </> "aishell_cuts_test.jsonl.gz") ]
  | Aishell2Train =>
      [ mkStep ["Loading Aishell-2 in lazy mode"]
          (root </> "aishell2_cuts_train.jsonl.gz") ]
  | Aishell2Dev =>
      [ mkStep ["Loading Aishell-2 set in lazy mode"]
          (root </> "aishell2_cuts_dev.jsonl.gz") ]
  | Aishell2Test =>
      [ mkStep ["Loading Aishell-2 set in lazy mode"]
          (root </> "aishell2_cuts_test.jsonl.gz") ]
  | WenetspeechTestMeeting =>
      [ mkStep ["Loading WeNetSpeech set in lazy mode"]
          (root </> "wenetspeech" </> "cuts_TEST_MEETING.jsonl.gz") ]
  | SpeechioTest => speechio_step root <$> dataset_parts
  end.

(** The dictionary [test_cuts] makes of its 15 handles, taken in the
    order of opening. *)
Definition test_dict (cs : list CutSet) : gmap string CutSet :=
  match cs with
  | [ aishell_test_cuts; aishell_dev_cuts; aishell2_test_cuts;
      aishell2_dev_cuts; aishell4_test_cuts; alimeeting_test_cuts;
      alimeeting_eval_cuts; magicdata_test_cuts; magicdata_dev_cuts;
      kespeech_test_cuts; kespeech_dev_phase1_cuts; kespeech_dev_phase2_cuts;
      wenetspeech_test_meeting_cuts; wenetspeech_test_net_cuts;
      wenetspeech_dev_cuts ] =>
      <["wenetspeech_dev" := wenetspeech_dev_cuts]>
      (<["wenetspeech-net_test" := wenetspeech_test_net_cuts]>
      (<["kespeech-asr_dev_phase2" := kespeech_dev_phase2_cuts]>
      (<["kespeech-asr_dev_phase1" := kespeech_dev_phase1_cuts]>
      (<["kespeech-asr_test" := kespeech_test_cuts]>
      (<["magicdata_dev" := magicdata_dev_cuts]>
      (<["magicdata_test" := magicdata_test_cuts]>
      (<["aishell-2_dev" := aishell2_dev_cuts]>
      (<["aishell-2_test" := aishell2_test_cuts]>
      (<["aishell-4_test" := aishell4_test_cuts]>
      (<["ali-meeting_eval" := alimeeting_eval_cuts]>
      (<["ali-meeting_test" := alimeeting_test_cuts]>
      (<["aishell_dev" := aishell_dev_cuts]>
      (<["aishell_test" := aishell_test_cuts]>
      (<["wenetspeech-meeting_test" := wenetspeech_test_meeting_cuts]>
       (∅ : gmap string CutSet)))))))))))))))
  | _ => ∅
  end.

(** The dictionary the loop of [speechio_test_cuts] fills. *)
Definition filled (names : list string) (cs : list CutSet)
    (results_dict : gmap string CutSet) : gmap string CutSet :=
  fold_left (fun d kc => <[kc.1 := kc.2]> d) (zip names cs) results_dict.

(** What an accessor other than [train_cuts] makes of its handles. *)
Definition value_of (a : Accessor) (cs : list CutSet) : Value :=
  match a with
  | Train => VCuts PyNone
  | Dev | AishellTrain | AishellDev | Aishell2Train | Aishell2Dev =>
      VCuts (hd PyNone cs)
  | Test => VDict (test_dict cs)
  | AishellTest => VDict (<["aishell_test" := hd PyNone cs]> ∅)
  | Aishell2Test => VDict (<["aishell2_test" := hd PyNone cs]> ∅)
  | WenetspeechTestMeeting =>
      VDict (<["wenetspeech-meeting_test" := hd PyNone cs]> ∅)
  | SpeechioTest => VDict (filled dataset_parts cs ∅)
  end.

(** What opening the manifest at [p] can give: [None], when the loader
    looks and the manifest holds no record, or a lazy handle on [p] made
    as one of the objects [lo] to [hi - 1]. *)
Definition handle_for (w : World) (lo hi : nat) (p : PurePath) (c : CutSet) : Prop :=
  (c = PyNone /\ opens_eagerly w = true /\ manifest w p = Some [])
  \/ (exists oid, c = LazyCuts oid p /\ lo <= oid < hi /\ openable w p = true).

(** ** A sample aggregator and sample disks *)

Definition example_self : t := {| fbank_dir := Path "data/fbank" |}.

(** Every file is there and holds two records. *)
Definition full_disk : World :=
  {| manifest := fun _ => Some ["cut-0"; "cut-1"]; opens_eagerly := true |}.

(** No file is there. *)
Definition empty_disk_eager : World :=
  {| manifest := fun _ => None; opens_eagerly := true |}.

(** The same, under a loader that defers the check to the first read. *)
Definition empty_disk_lazy : World :=
  {| manifest := fun _ => None; opens_eagerly := false |}.

(** A disk on which every file holds two records, except [q], which is
    not there. *)
Definition disk_without (q : PurePath) (eager : bool) : World :=
  {| manifest := fun p => if decide (p = q) then None else Some ["cut-0"; "cut-1"];
     opens_eagerly := eager |}.

(** A disk on which every file holds two records, except [q], which is
    there and holds none. *)
Definition disk_with_empty (q : PurePath) : World :=
  {| manifest := fun p => if decide (p = q) then Some [] else Some ["cut-0"; "cut-1"];
     opens_eagerly := true |}.

(** A disk that holds the three manifests of AISHELL-1 and nothing else. *)
Definition aishell_only_disk : World :=
  {| manifest := fun p =>
       if bool_decide (p ∈ [ Path "data/fbank" </> "aishell_cuts_train.jsonl.gz";
                             Path "data/fbank" </> "aishell_cuts_dev.jsonl.gz";
                             Path "data/fbank" </> "aishell_cuts_test.jsonl.gz" ])
       then Some ["cut-0"] else None;
     opens_eagerly := true |}.

(** ** Further observations *)

(** [s.endswith(suffix)] *)
Definition endswith (s suffix : string) : bool :=
  bool_decide
    (substring (String.length s - String.length suffix) (String.length suffix) s
     = suffix).

(** A plain file or directory name: not empty, no separator in it, and
    neither of the two dot names. *)
Definition plain_name (s : string) : bool :=
  negb (bool_decide (s = EmptyString))
  && negb (existsb is_slash (list_ascii_of_string s))
  && negb (bool_decide (s = ".")) && negb (bool_decide (s = "..")).

(** The names an accessor may put below the root: a manifest file, alone
    or inside one of the two corpus directories. *)
Definition manifest_place (names : list string) : bool :=
  match names with
  | [file] => plain_name file && endswith file ".jsonl.gz"
  | [dir; file] =>
      (bool_decide (dir = "kespeech") || bool_decide (dir = "wenetspeech"))
      && plain_name file && endswith file ".jsonl.gz"
  | _ => false
  end.

Open Scope list_scope.

(** ** Laws of the monad, run by run *)

Lemma bind_run {A B} (m : M A) (k : A -> M B) w n :
  bind m k w n =
  match m w n with
  | mkRun (Returned a) n1 t1 =>
      match k a w n1 with
      | mkRun o n2 t2 => mkRun o n2 (t1 ++ t2)
      end
  | mkRun (Raised e) n1 t1 => mkRun (Raised e) n1 t1
  end.
Proof. reflexivity. Qed.

Lemma bind_ret_l {A B} (a : A) (k : A -> M B) w n :
  bind (ret a) k w n = k a w n.
Proof. rewrite bind_run. unfold ret. by destruct (k a w n). Qed.

Lemma bind_assoc {A B C} (m : M A) (k : A -> M B) (h : B -> M C) w n :
  bind (bind m k) h w n = bind m (fun a => bind (k a) h) w n.
Proof.
  rewrite !bind_run. destruct (m w n) as [[a|e] n1 t1]; [|done].
  rewrite !bind_run. destruct (k a w n1) as [[b|e] n2 t2]; [|done].
  destruct (h b w n2) as [o n3 t3]. by rewrite app_assoc.
Qed.

Lemma bind_ext {A B} (m m' : M A) (k k' : A -> M B) w n :
  (forall w n, m w n = m' w n) ->
  (forall a w n, k a w n = k' a w n) ->
  bind m k w n = bind m' k' w n.
Proof.
  intros Hm Hk. rewrite !bind_run, Hm.
  destruct (m' w n) as [[a|e] n1 t1]; [|done]. by rewrite Hk.
Qed.

Lemma run_bind_ret {A B} (m : M A) (f : A -> B) w n :
  (x <- m ;; ret (f x)) w n =
  match m w n with
  | mkRun (Returned a) n' tr => mkRun (Returned (f a)) n' tr
  | mkRun (Raised e) n' tr => mkRun (Raised e) n' tr
  end.
Proof.
  unfold bind, ret. destruct (m w n) as [[a|e] n' tr]; [|done].
  by rewrite app_nil_r.
Qed.

Lemma log_then_run {A} msgs (m : M A) w n :
  log_then msgs m w n =
  match m w n with
  | mkRun o n' tr => mkRun o n' ((Log <$> msgs) ++ tr)
  end.
Proof.
  induction msgs as [|msg msgs IH]; cbn [log_then fmap list_fmap].
  - by destruct (m w n).
  - unfold logging_info. rewrite bind_run. cbn. rewrite IH.
    by destruct (m w n).
Qed.

Lemma log_then_ext {A} msgs (m m' : M A) w n :
  (forall w n, m w n = m' w n) -> log_then msgs m w n = log_then msgs m' w n.
Proof. intros H. by rewrite !log_then_run, H. Qed.

Lemma log_then_bind {A B} msgs (m : M A) (k : A -> M B) w n :
  bind (log_then msgs m) k w n = log_then msgs (bind m k) w n.
Proof.
  rewrite bind_run, !log_then_run, bind_run.
  destruct (m w n) as [[a|e] n1 t1]; [|done].
  destruct (k a w n1) as [o n2 t2]. by rewrite app_assoc.
Qed.

(** ** The shape, run by run *)

Lemma open_all_bind steps :
  forall A (k : list CutSet -> M A) w n,
    open_all steps k w n = bind (open_all steps ret) k w n.
Proof.
  induction steps as [|s steps IH]; intros A k w n; cbn [open_all].
  - by rewrite bind_ret_l.
  - rewrite log_then_bind. apply log_then_ext. clear w n. intros w n.
    rewrite bind_assoc. apply bind_ext; [done|]. clear w n. intros c w n.
    etrans; [apply IH|]. symmetry.
    etrans; [apply bind_ext; [intros; apply IH | done]|].
    rewrite bind_assoc. apply bind_ext; [done|].
    intros cs w' n'. by rewrite bind_ret_l.
Qed.

Lemma len_all_bind cs :
  forall A (k : list nat -> M A) w n,
    len_all cs k w n = bind (len_all cs ret) k w n.
Proof.
  induction cs as [|c cs IH]; intros A k w n; cbn [len_all].
  - by rewrite bind_ret_l.
  - rewrite bind_assoc. apply bind_ext; [done|]. clear w n. intros x w n.
    etrans; [apply IH|]. symmetry.
    etrans; [apply bind_ext; [intros; apply IH | done]|].
    rewrite bind_assoc. apply bind_ext; [done|].
    intros xs w' n'. by rewrite bind_ret_l.
Qed.

Lemma load_run p w n :
  load_manifest_lazy p w n =
  if opens_eagerly w
  then match manifest w p with
       | None => mkRun (Raised (FileNotFoundError p)) n [Open p]
       | Some [] => mkRun (Returned PyNone) n [Open p; ReadFirst p]
       | Some (_ :: _) => mkRun (Returned (LazyCuts n p)) (S n) [Open p; ReadFirst p]
       end
  else mkRun (Returned (LazyCuts n p)) (S n) [Open p].
Proof.
  unfold load_manifest_lazy. rewrite !bind_run. cbn.
  destruct (opens_eagerly w); [|reflexivity].
  by destruct (manifest w p) as [[|cut cuts]|].
Qed.

Lemma open_all_cons s steps w n :
  open_all (s :: steps) ret w n =
  match load_manifest_lazy (file s) w n with
  | mkRun (Returned c) n1 t1 =>
      match open_all steps ret w n1 with
      | mkRun (Returned cs) n2 t2 =>
          mkRun (Returned (c :: cs)) n2 ((Log <$> announce s) ++ t1 ++ t2)
      | mkRun (Raised e) n2 t2 =>
          mkRun (Raised e) n2 ((Log <$> announce s) ++ t1 ++ t2)
      end
  | mkRun (Raised e) n1 t1 => mkRun (Raised e) n1 ((Log <$> announce s) ++ t1)
  end.
Proof.
  cbn [open_all]. rewrite log_then_run, bind_run.
  destruct (load_manifest_lazy (file s) w n) as [[c|e] n1 t1]; [|done].
  rewrite open_all_bind, run_bind_ret.
  by destruct (open_all steps ret w n1) as [[cs|e] n2 t2].
Qed.

Lemma len_run w lo hi p c n :
  handle_for w lo hi p c ->
  len c w n =
  if opens_eagerly w && is_empty w p then mkRun (Raised TypeError) n []
  else match manifest w p with
       | Some cuts => mkRun (Returned (length cuts)) n [Count p]
       | None => mkRun (Raised (FileNotFoundError p)) n [Count p]
       end.
Proof.
  unfold handle_for, openable, nonempty, is_empty.
  intros [(-> & -> & ->) | (oid & -> & _ & Hopen)]; [done|].
  cbn [len]. rewrite !bind_run. cbn. unfold load_jsonl.
  destruct (opens_eagerly w); cbn in *.
  - by destruct (manifest w p) as [[|cut cuts]|].
  - by destruct (manifest w p) as [[|cut cuts]|].
Qed.

Lemma len_all_cons c cs w n :
  len_all (c :: cs) ret w n =
  match len c w n with
  | mkRun (Returned x) n1 t1 =>
      match len_all cs ret w n1 with
      | mkRun (Returned xs) n2 t2 => mkRun (Returned (x :: xs)) n2 (t1 ++ t2)
      | mkRun (Raised e) n2 t2 => mkRun (Raised e) n2 (t1 ++ t2)
      end
  | mkRun (Raised e) n1 t1 => mkRun (Raised e) n1 t1
  end.
Proof.
  cbn [len_all]. rewrite bind_run.
  destruct (len c w n) as [[x|e] n1 t1]; [|done].
  rewrite len_all_bind, run_bind_ret.
  by destruct (len_all cs ret w n1) as [[xs|e] n2 t2].
Qed.

(** ** What a run of the shape shows *)

Lemma opened_app t1 t2 : opened (t1 ++ t2) = opened t1 ++ opened t2.
Proof. apply omap_app. Qed.

Lemma counted_app t1 t2 : counted (t1 ++ t2) = counted t1 ++ counted t2.
Proof. apply omap_app. Qed.

Lemma first_reads_app t1 t2 : first_reads (t1 ++ t2) = first_reads t1 ++ first_reads t2.
Proof. apply omap_app. Qed.

Lemma logs_silent msgs :
  opened (Log <$> msgs) = [] /\ counted (Log <$> msgs) = []
  /\ first_reads (Log <$> msgs) = [].
Proof. by induction msgs. Qed.

Ltac observe :=
  rewrite ?opened_app, ?counted_app, ?first_reads_app,
    ?(proj1 (logs_silent _)), ?(proj1 (proj2 (logs_silent _))),
    ?(proj2 (proj2 (logs_silent _)));
  cbn [opened counted first_reads omap list_omap app].

Lemma handle_for_mono w lo hi lo' hi' p c :
  lo' <= lo -> hi <= hi' -> handle_for w lo hi p c -> handle_for w lo' hi' p c.
Proof.
  intros Hlo Hhi [H | (oid & -> & Hin & Hopen)]; [by left | right].
  exists oid. split_and!; [done | lia | lia | done].
Qed.

Lemma handle_for_contents w lo hi p c :
  handle_for w lo hi p c -> contents c = entry w p.
Proof.
  unfold entry, is_empty.
  intros [(-> & -> & ->) | (oid & -> & _ & Hopen)]; [done|].
  unfold openable, nonempty in Hopen.
  destruct (opens_eagerly w); [|done].
  by destruct (manifest w p) as [[|cut cuts]|].
Qed.

Lemma handle_for_oids w lo hi p c :
  handle_for w lo hi p c -> Forall (fun i => lo <= i < hi) (oids c).
Proof.
  intros [(-> & _) | (oid & -> & Hin & _)]; cbn; repeat constructor; lia.
Qed.

Lemma handle_for_present w lo hi p c :
  handle_for w lo hi p c -> opens_eagerly w = true -> present w p = true.
Proof.
  unfold present, openable, nonempty.
  intros [(_ & _ & ->) | (oid & _ & _ & Hopen)] He; [done|].
  unfold openable, nonempty in Hopen. rewrite He in Hopen. by destruct (manifest w p) as [[|cut cuts]|].
Qed.

Lemma handle_for_lazy w lo hi p c :
  handle_for w lo hi p c -> openable w p = true -> exists oid, c = LazyCuts oid p.
Proof.
  intros [(_ & He & Hm) | (oid & -> & _)] Hopen; [|by exists oid].
  unfold openable, nonempty in Hopen. by rewrite He, Hm in Hopen.
Qed.

(** Opening a list of manifests: the handles come back in order, one for
    each manifest, unless the loader looks and a manifest is missing, in
    which case the run stops with that manifest, the first missing one. *)
Lemma open_all_facts steps :
  forall w n,
    match open_all steps ret w n with
    | mkRun o n' tr =>
        n <= n' /\ counted tr = []
        /\ (forall p, p ∈ first_reads tr ->
              p ∈ opened tr /\ opens_eagerly w = true /\ present w p = true)
        /\ match o with
           | Returned cs =>
               opened tr = file <$> steps
               /\ Forall2 (handle_for w n n') (file <$> steps) cs
           | Raised e =>
               opens_eagerly w = true
               /\ exists pre q post,
                    e = FileNotFoundError q
                    /\ file <$> steps = pre ++ q :: post
                    /\ opened tr = pre ++ [q]
                    /\ manifest w q = None
                    /\ all_present w pre = true
           end
    end.
Proof.
  induction steps as [|s steps IH]; intros w n.
  - cbn. split_and!; try done. intros p Hp. by apply elem_of_nil in Hp.
  - rewrite open_all_cons, load_run. set (p := file s).
    assert (forall n1 t1 c,
      n <= n1 -> handle_for w n n1 p c ->
      opened t1 = [p] -> counted t1 = [] ->
      (forall q, q ∈ first_reads t1 ->
         q = p /\ opens_eagerly w = true /\ present w p = true) ->
      match
        match open_all steps ret w n1 with
        | mkRun (Returned cs) n2 t2 =>
            mkRun (Returned (c :: cs)) n2 ((Log <$> announce s) ++ t1 ++ t2)
        | mkRun (Raised e) n2 t2 =>
            mkRun (Raised e) n2 ((Log <$> announce s) ++ t1 ++ t2)
        end
      with
      | mkRun o n' tr =>
          n <= n' /\ counted tr = []
          /\ (forall p, p ∈ first_reads tr ->
                p ∈ opened tr /\ opens_eagerly w = true /\ present w p = true)
          /\ match o with
             | Returned cs =>
                 opened tr = file <$> (s :: steps)
                 /\ Forall2 (handle_for w n n') (file <$> (s :: steps)) cs
             | Raised e =>
                 opens_eagerly w = true
                 /\ exists pre q post,
                      e = FileNotFoundError q
                      /\ file <$> (s :: steps) = pre ++ q :: post
                      /\ opened tr = pre ++ [q]
                      /\ manifest w q = None
                      /\ all_present w pre = true
             end
      end) as Hgo.
    { intros n1 t1 c Hn Hc Hop Hcn Hfr. specialize (IH w n1).
      destruct (open_all steps ret w n1) as [[cs|e] n2 t2];
        destruct IH as (Hle & Hcnt & Hreads & Ho).
      - observe. rewrite Hop, Hcn, Hcnt. split; [lia|]. split; [done|]. split.
        + intros q [Hq | Hq]%elem_of_app.
          * destruct (Hfr q Hq) as (-> & ? & ?). split_and!; try done.
            apply list_elem_of_here.
          * destruct (Hreads q Hq) as (? & ? & ?). split_and!; try done.
            by apply list_elem_of_further.
        + destruct Ho as [-> Hall]. split; [done|]. cbn [fmap list_fmap].
          constructor.
          * eapply handle_for_mono; [| |exact Hc]; lia.
          * eapply Forall2_impl; [exact Hall|]. intros q c' Hq.
            eapply handle_for_mono; [| |exact Hq]; lia.
      - observe. rewrite Hop, Hcn, Hcnt. split; [lia|]. split; [done|]. split.
        + intros q [Hq | Hq]%elem_of_app.
          * destruct (Hfr q Hq) as (-> & ? & ?). split_and!; try done.
            apply list_elem_of_here.
          * destruct (Hreads q Hq) as (? & ? & ?). split_and!; try done.
            by apply list_elem_of_further.
        + destruct Ho as (He & pre & q & post & -> & Hsplit & -> & Hq & Hpre).
          split; [done|]. exists (p :: pre), q, post.
          split_and!; try done.
          * cbn [fmap list_fmap]. by rewrite Hsplit.
          * cbn [all_present forallb]. fold (all_present w pre).
            by rewrite (handle_for_present _ _ _ _ _ Hc He), Hpre. }
    destruct (opens_eagerly w) eqn:He.
    + destruct (manifest w p) as [[|cut cuts]|] eqn:Em.
      * apply Hgo; [lia | by left | done | done |].
        intros q ->%list_elem_of_singleton. unfold present. by rewrite Em.
      * apply Hgo; [lia | | done | done |].
        -- right. exists n. split_and!; [done | lia | lia |].
           unfold openable, nonempty. by rewrite He, Em.
        -- intros q ->%list_elem_of_singleton. unfold present. by rewrite Em.
      * observe. split; [lia|]. split; [done|]. split.
        -- intros q Hq. by apply elem_of_nil in Hq.
        -- split; [done|]. by exists [], p, (file <$> steps).
    + apply Hgo; [lia | | done | done |].
      * right. exists n. split_and!; [done | lia | lia |].
        unfold openable. by rewrite He.
      * intros q Hq. by apply elem_of_nil in Hq.
Qed.

(** A run of the shape does not depend on the identities handed out
    before it. *)
Lemma open_all_again steps :
  forall w n m,
    match open_all steps ret w n, open_all steps ret w m with
    | mkRun o1 _ t1, mkRun o2 _ t2 =>
        t1 = t2
        /\ match o1, o2 with
           | Returned _, Returned _ => True
           | Raised e1, Raised e2 => e1 = e2
           | _, _ => False
           end
    end.
Proof.
  induction steps as [|s steps IH]; intros w n m; [done|].
  rewrite !open_all_cons, !load_run.
  assert (forall n1 m1 c c' t,
    match
      match open_all steps ret w n1 with
      | mkRun (Returned cs) n2 t2 =>
          mkRun (Returned (c :: cs)) n2 ((Log <$> announce s) ++ t ++ t2)
      | mkRun (Raised e) n2 t2 =>
          mkRun (Raised e) n2 ((Log <$> announce s) ++ t ++ t2)
      end,
      match open_all steps ret w m1 with
      | mkRun (Returned cs) n2 t2 =>
          mkRun (Returned (c' :: cs)) n2 ((Log <$> announce s) ++ t ++ t2)
      | mkRun (Raised e) n2 t2 =>
          mkRun (Raised e) n2 ((Log <$> announce s) ++ t ++ t2)
      end
    with
    | mkRun o1 _ t1, mkRun o2 _ t2 =>
        t1 = t2
        /\ match o1, o2 with
           | Returned _, Returned _ => True
           | Raised e1, Raised e2 => e1 = e2
           | _, _ => False
           end
    end) as Hgo.
  { intros n1 m1 c c' t. specialize (IH w n1 m1).
    destruct (open_all steps ret w n1) as [[cs1|e1] k1 t1],
             (open_all steps ret w m1) as [[cs2|e2] k2 t2];
      destruct IH as [-> Ho]; done. }
  destruct (opens_eagerly w); [|apply Hgo].
  destruct (manifest w (file s)) as [[|cut cuts]|]; [apply Hgo | apply Hgo | done].
Qed.

(** Taking [len] of the handles of a list of manifests: the counts come
    back in order, unless a handle is [None] (the run stops there, before
    any read) or its manifest is missing (the run stops at that read,
    which only a loader that does not look lets happen). *)
Lemma len_all_facts w lo hi ps cs :
  Forall2 (handle_for w lo hi) ps cs ->
  forall n,
    match len_all cs ret w n with
    | mkRun o n' tr =>
        n' = n /\ opened tr = [] /\ first_reads tr = []
        /\ match o with
           | Returned xs =>
               xs = records w <$> ps /\ counted tr = ps
               /\ all_present w ps = true /\ all_openable w ps = true
           | Raised e =>
               exists pre q post,
                 ps = pre ++ q :: post
                 /\ all_present w pre = true /\ all_openable w pre = true
                 /\ ((e = FileNotFoundError q /\ manifest w q = None
                      /\ opens_eagerly w = false /\ counted tr = pre ++ [q])
                     \/ (e = TypeError /\ manifest w q = Some []
                         /\ opens_eagerly w = true /\ counted tr = pre))
           end
    end.
Proof.
  induction 1 as [|p c ps cs Hc Hall IH]; intros n; [done|].
  rewrite len_all_cons, (len_run _ _ _ _ _ n Hc).
  destruct (opens_eagerly w && is_empty w p) eqn:Hnone.
  { apply andb_true_iff in Hnone as [He Hempty]. unfold is_empty in Hempty.
    split_and!; try done. exists [], p, ps. split_and!; try done. right.
    split_and!; try done. by destruct (manifest w p) as [[|cut cuts]|]. }
  assert (openable w p = true) as Hopen.
  { destruct Hc as [(_ & He & Hm) | (oid & _ & _ & Hopen)]; [|done].
    unfold is_empty in Hnone. by rewrite He, Hm in Hnone. }
  destruct (manifest w p) as [cuts|] eqn:Em.
  - specialize (IH n).
    destruct (len_all cs ret w n) as [[xs|e] n2 t2];
      destruct IH as (-> & Hop & Hfr & Ho); observe; rewrite Hop, Hfr.
    + destruct Ho as (-> & -> & Hpres & Hopens). split_and!; try done.
      * cbn [fmap list_fmap]. f_equal. unfold records. by rewrite Em.
      * cbn [all_present forallb]. unfold present at 1. by rewrite Em.
      * cbn [all_openable forallb]. by rewrite Hopen.
    + destruct Ho as (pre & q & post & -> & Hpres & Hopens & Hq).
      split_and!; try done. exists (p :: pre), q, post. split_and!; try done.
      * cbn [all_present forallb]. unfold present at 1. by rewrite Em.
      * cbn [all_openable forallb]. by rewrite Hopen.
      * destruct Hq as [(-> & ? & ? & ->) | (-> & ? & ? & ->)]; [left | right]; done.
  - split_and!; try done. exists [], p, ps. split_and!; try done. left.
    split_and!; try done.
    unfold openable, nonempty in Hopen. rewrite Em in Hopen.
    by destruct (opens_eagerly w).
Qed.

Lemma len_all_again w lo hi lo' hi' ps cs :
  Forall2 (handle_for w lo hi) ps cs ->
  forall cs' n m,
    Forall2 (handle_for w lo' hi') ps cs' ->
    outcome (len_all cs ret w n) = outcome (len_all cs' ret w m)
    /\ trace (len_all cs ret w n) = trace (len_all cs' ret w m).
Proof.
  induction 1 as [|p c ps cs Hc Hall IH]; intros cs' n m Hcs'.
  - by apply Forall2_nil_inv_l in Hcs' as ->.
  - apply Forall2_cons_inv_l in Hcs' as (c' & cs'' & Hc' & Hall' & ->).
    rewrite !len_all_cons, (len_run _ _ _ _ _ n Hc), (len_run _ _ _ _ _ m Hc').
    destruct (opens_eagerly w && is_empty w p); [done|].
    destruct (manifest w p) as [cuts|]; [|done].
    destruct (IH cs'' n m Hall') as [Ho Ht].
    destruct (len_all cs ret w n) as [[xs|e] n2 t2],
             (len_all cs'' ret w m) as [[xs'|e'] m2 t2'];
      cbn [outcome trace] in *; by simplify_eq.
Qed.

Lemma Forall2_mux_order {A B} (P : A -> B -> Prop) l k :
  Forall2 P l k -> Forall2 P (mux_order l) (mux_order k).
Proof.
  intros H.
  do 13 (destruct H as [|? ? ? ? ? H]; [cbn; by repeat constructor|]).
  destruct H; cbn; by repeat constructor.
Qed.

(** ** Every accessor is the shape *)

Lemma dataset_parts_eq : dataset_parts = speechio_partitions.
Proof. vm_compute. reflexivity. Qed.

Lemma steps_files a self : file <$> steps_of a self = opens_of a self.
Proof.
  destruct a; reflexivity.
Qed.

Lemma shape_run {A} (p : string) steps (f : list CutSet -> A) (V : A -> Value) w n :
  (x <- (logging_info p ;; open_all steps (fun cs => ret (f cs))) ;; ret (V x)) w n =
  match open_all steps ret w n with
  | mkRun (Returned cs) n1 t1 => mkRun (Returned (V (f cs))) n1 (Log p :: t1)
  | mkRun (Raised e) n1 t1 => mkRun (Raised e) n1 (Log p :: t1)
  end.
Proof.
  rewrite run_bind_ret, bind_run. unfold logging_info, emit.
  rewrite open_all_bind, run_bind_ret.
  by destruct (open_all steps ret w n) as [[cs|e] n1 t1].
Qed.

Lemma for_each_open_all root names :
  forall acc w n,
    for_each names
      (fun partition results_dict =>
         let path := "speechio" +:+ "_cuts_" +:+ partition +:+ "." +:+ "jsonl.gz" in
         logging_info ("Loading " +:+ path +:+ " set in lazy mode") ;;
         test_cuts <- load_manifest_lazy (root </> path) ;;
         ret (<[partition := test_cuts]> results_dict)) acc w n
    = open_all (speechio_step root <$> names)
        (fun cs => ret (filled names cs acc)) w n.
Proof.
  induction names as [|x names IH]; intros acc w n; [reflexivity|].
  cbn [for_each fmap list_fmap open_all speechio_step announce file log_then].
  cbv zeta. rewrite bind_assoc. apply bind_ext; [done|].
  clear w n. intros _ w n. rewrite bind_assoc. apply bind_ext; [done|].
  clear w n. intros c w n. rewrite bind_ret_l. apply IH.
Qed.

Lemma train_shape_run (p : string) steps w n :
  (c <- (logging_info p ;;
         open_all steps
           (fun cs => len_all (mux_order cs)
                        (fun xs => CutSet_mux (mux_order cs) xs))) ;;
   ret (VCuts c)) w n =
  match open_all steps ret w n with
  | mkRun (Returned cs) n1 t1 =>
      match len_all (mux_order cs) ret w n1 with
      | mkRun (Returned xs) n2 t2 =>
          mkRun (Returned (VCuts (MuxCuts n2 (mux_order cs) xs))) (S n2)
                (Log p :: t1 ++ t2)
      | mkRun (Raised e) n2 t2 => mkRun (Raised e) n2 (Log p :: t1 ++ t2)
      end
  | mkRun (Raised e) n1 t1 => mkRun (Raised e) n1 (Log p :: t1)
  end.
Proof.
  rewrite run_bind_ret, bind_run. unfold logging_info, emit.
  rewrite open_all_bind, bind_run.
  destruct (open_all steps ret w n) as [[cs|e] n1 t1]; [|done].
  rewrite len_all_bind, bind_run.
  destruct (len_all (mux_order cs) ret w n1) as [[xs|e] n2 t2]; [|done].
  unfold CutSet_mux. rewrite bind_run. cbn. by rewrite app_nil_r.
Qed.

Lemma call_train_run self w n :
  call Train self w n =
  match open_all (steps_of Train self) ret w n with
  | mkRun (Returned cs) n1 t1 =>
      match len_all (mux_order cs) ret w n1 with
      | mkRun (Returned xs) n2 t2 =>
          mkRun (Returned (VCuts (MuxCuts n2 (mux_order cs) xs))) (S n2)
                (Log (prelude Train) :: t1 ++ t2)
      | mkRun (Raised e) n2 t2 =>
          mkRun (Raised e) n2 (Log (prelude Train) :: t1 ++ t2)
      end
  | mkRun (Raised e) n1 t1 => mkRun (Raised e) n1 (Log (prelude Train) :: t1)
  end.
Proof. exact (train_shape_run (prelude Train) (steps_of Train self) w n). Qed.

Lemma call_other_run a self w n :
  a <> Train ->
  call a self w n =
  match open_all (steps_of a self) ret w n with
  | mkRun (Returned cs) n1 t1 =>
      mkRun (Returned (value_of a cs)) n1 (Log (prelude a) :: t1)
  | mkRun (Raised e) n1 t1 => mkRun (Raised e) n1 (Log (prelude a) :: t1)
  end.
Proof.
  intros Ha. destruct a; try done.
  - exact (shape_run (prelude Dev) (steps_of Dev self) (hd PyNone) VCuts w n).
  - exact (shape_run (prelude Test) (steps_of Test self) test_dict VDict w n).
  - exact (shape_run (prelude AishellTrain) (steps_of AishellTrain self)
             (hd PyNone) VCuts w n).
  - exact (shape_run (prelude AishellDev) (steps_of AishellDev self)
             (hd PyNone) VCuts w n).
  - exact (shape_run (prelude AishellTest) (steps_of AishellTest self)
             (fun cs => <["aishell_test" := hd PyNone cs]> ∅) VDict w n).
  - exact (shape_run (prelude Aishell2Train) (steps_of Aishell2Train self)
             (hd PyNone) VCuts w n).
  - exact (shape_run (prelude Aishell2Dev) (steps_of Aishell2Dev self)
             (hd PyNone) VCuts w n).
  - exact (shape_run (prelude Aishell2Test) (steps_of Aishell2Test self)
             (fun cs => <["aishell2_test" := hd PyNone cs]> ∅) VDict w n).
  - exact (shape_run (prelude WenetspeechTestMeeting)
             (steps_of WenetspeechTestMeeting self)
             (fun cs => <["wenetspeech-meeting_test" := hd PyNone cs]> ∅) VDict w n).
  - etrans; [|exact (shape_run (prelude SpeechioTest) (steps_of SpeechioTest self)
                        (fun cs => filled dataset_parts cs ∅) VDict w n)].
    unfold call, speechio_test_cuts. cbv zeta.
    apply bind_ext; [|done]. clear w n. intros w n.
    apply bind_ext; [done|]. clear w n. intros _ w n.
    apply for_each_open_all.
Qed.

(** What the accessors other than [train_cuts] make of their handles:
    a value that holds, manifest by manifest, what the opens gave. *)
Lemma value_of_facts a self w lo hi cs :
  a <> Train ->
  Forall2 (handle_for w lo hi) (opens_of a self) cs ->
  value_contents (value_of a cs) = answer a self w
  /\ oids_within lo hi (value_of a cs).
Proof.
  intros Ha H. destruct self as [root]. destruct a; try done; clear Ha.
  all: cbv [opens_of listed partitions_of test_manifests speechio_files
            speechio_partitions zip_with fmap list_fmap snd fbank_dir] in H.
  all: repeat match goal with
         | H : Forall2 _ (_ :: _) _ |- _ =>
             apply Forall2_cons_inv_l in H as (? & ? & ? & H & ->)
         end.
  all: apply Forall2_nil_inv_l in H as ->.
  all: cbv [value_of]; try rewrite dataset_parts_eq.
  all: split.
  all: cbv [value_of test_dict hd filled speechio_partitions zip_with fold_left
            fst snd value_contents oids_within answer listed partitions_of
            test_manifests speechio_files fbank_dir].
  all: try (repeat apply map_Forall_insert_2; try apply map_Forall_empty;
            eapply handle_for_oids; eassumption).
  all: f_equal.
  all: rewrite ?fmap_insert, ?fmap_empty.
  all: repeat match goal with
         | H : handle_for _ _ _ _ ?c |- _ =>
             apply handle_for_contents in H; rewrite H; clear H
         end.
  all: try reflexivity.
  all: cbn [list_to_map fold_right fst snd fmap list_fmap];
       rewrite ?fmap_insert, ?fmap_empty.
  all: repeat match goal with
         | |- context [entry ?w0 ?p] => generalize (entry w0 p); intro
         end.
  all: reflexivity.
Qed.

Lemma opens_of_listed a self : opens_of a self ≡ₚ listed a self.
Proof.
  destruct a; try reflexivity.
  all: cbv [opens_of listed partitions_of train_manifests test_manifests
            fmap list_fmap snd].
  all: solve_Permutation.
Qed.

Lemma handles_present w lo hi ps cs :
  Forall2 (handle_for w lo hi) ps cs ->
  opens_eagerly w = true -> all_present w ps = true.
Proof.
  induction 1 as [|p c ps cs Hc _ IH]; intros He; [done|].
  cbn [all_present forallb]. fold (all_present w ps).
  by rewrite (handle_for_present _ _ _ _ _ Hc He), IH.
Qed.

Lemma handles_lazy w lo hi ps cs :
  Forall2 (handle_for w lo hi) ps cs ->
  all_openable w ps = true -> contents <$> cs = FromManifest <$> ps.
Proof.
  induction 1 as [|p c ps cs Hc _ IH]; [done|].
  cbn [all_openable forallb]. fold (all_openable w ps).
  intros [Hp Hps]%andb_true_iff. cbn [fmap list_fmap]. f_equal; [|by apply IH].
  by destruct (handle_for_lazy _ _ _ _ _ Hc Hp) as [oid ->].
Qed.

Lemma handles_oids w lo hi ps cs :
  Forall2 (handle_for w lo hi) ps cs ->
  Forall (fun i => lo <= i < hi) (flat_map oids cs).
Proof.
  induction 1 as [|p c ps cs Hc _ IH]; [constructor|].
  cbn [flat_map]. apply Forall_app. split; [|done]. by eapply handle_for_oids.
Qed.

Lemma all_present_perm w ps qs :
  ps ≡ₚ qs -> all_present w ps = true -> all_present w qs = true.
Proof.
  unfold all_present. rewrite !forallb_forall.
  intros Hperm H q Hq%list_elem_of_In. apply H, list_elem_of_In. by rewrite Hperm.
Qed.

Lemma prefix_snoc {A} (pre post : list A) q : (pre ++ [q]) `prefix_of` (pre ++ q :: post).
Proof. exists post. by rewrite <- app_assoc. Qed.

(** Everything a single run of an accessor tells: which manifests it
    opened and read, and either what it answered or where it stopped.  A
    run stops in one of three ways: at the open of the first missing
    manifest, under a loader that looks; at the [len] read of the first
    missing manifest, for [train_cuts] under a loader that does not; at
    the [len] of the first [None], for [train_cuts] when a manifest holds
    no record. *)
Lemma call_facts a self w n :
  match call a self w n with
  | mkRun o n' tr =>
      n <= n'
      /\ opened tr `prefix_of` opens_of a self
      /\ (a <> Train -> counted tr = [])
      /\ counted tr `prefix_of` listed a self
      /\ (forall p, p ∈ first_reads tr ->
            p ∈ opened tr /\ opens_eagerly w = true /\ present w p = true)
      /\ match o with
         | Returned v =>
             value_contents v = answer a self w
             /\ (opens_eagerly w = true -> all_present w (listed a self) = true)
             /\ (a = Train ->
                 all_present w (listed a self) = true
                 /\ all_openable w (listed a self) = true
                 /\ counted tr = listed a self)
             /\ opened tr = opens_of a self
             /\ oids_within n n' v
         | Raised e =>
             exists pre q post,
               (e = FileNotFoundError q /\ manifest w q = None
                /\ opens_eagerly w = true
                /\ opens_of a self = pre ++ q :: post
                /\ opened tr = pre ++ [q]
                /\ all_present w pre = true
                /\ counted tr = [])
               \/ (e = FileNotFoundError q /\ manifest w q = None
                   /\ opens_eagerly w = false /\ a = Train
                   /\ listed a self = pre ++ q :: post
                   /\ counted tr = pre ++ [q]
                   /\ all_present w pre = true
                   /\ opened tr = opens_of a self)
               \/ (e = TypeError /\ manifest w q = Some []
                   /\ opens_eagerly w = true /\ a = Train
                   /\ listed a self = pre ++ q :: post
                   /\ counted tr = pre
                   /\ all_openable w pre = true
                   /\ all_present w (listed a self) = true
                   /\ opened tr = opens_of a self)
         end
  end.
Proof.
  pose proof (open_all_facts (steps_of a self) w n) as Hopen.
  rewrite steps_files in Hopen.
  destruct (decide (a = Train)) as [-> | Ha].
  - rewrite call_train_run.
    destruct (open_all (steps_of Train self) ret w n) as [[cs|e] n1 t1];
      destruct Hopen as (Hle & Hcnt & Hreads & Ho).
    + destruct Ho as [Hop Hcs].
      pose proof (Forall2_mux_order _ _ _ Hcs) as Hmux.
      change (mux_order (opens_of Train self)) with (listed Train self) in Hmux.
      pose proof (len_all_facts _ _ _ _ _ Hmux n1) as Hlen.
      destruct (len_all (mux_order cs) ret w n1) as [[xs|e] n2 t2];
        destruct Hlen as (-> & Hop2 & Hfr2 & Hl); cbn [opened counted first_reads omap list_omap];
        observe; rewrite ?Hop, ?Hop2, ?Hcnt, ?Hfr2, ?app_nil_r; cbn [app].
      * destruct Hl as (-> & Hc2 & Hpres & Hopens). rewrite Hc2.
        split; [lia|]. split; [done|]. split; [done|]. split; [done|].
        split; [by rewrite <- Hop|].
        split; [|split; [done|split; [done|split; [done|]]]].
        -- cbn [value_contents contents answer]. do 2 f_equal.
           exact (handles_lazy _ _ _ _ _ Hmux Hopens).
        -- cbn [oids_within oids]. constructor; [lia|].
           eapply Forall_impl; [exact (handles_oids _ _ _ _ _ Hmux)|].
           cbv beta. lia.
      * destruct Hl as (pre & q & post & Hsplit & Hpres & Hopens & Hq).
        assert (counted t2 `prefix_of` listed Train self) as Hpre.
        { rewrite Hsplit.
          destruct Hq as [(_ & _ & _ & ->) | (_ & _ & _ & ->)];
            [apply prefix_snoc | by eexists]. }
        split; [lia|]. split; [done|]. split; [done|]. split; [done|].
        split; [by rewrite <- Hop|].
        exists pre, q, post. right.
        destruct Hq as [(-> & ? & ? & ->) | (-> & ? & He & ->)];
          [left | right]; split_and!; try done.
        eapply all_present_perm; [apply (opens_of_listed Train)|].
        by eapply handles_present.
    + destruct Ho as (He & pre & q & post & -> & Hsplit & Hop & Hq & Hpre).
      cbn [opened counted first_reads omap list_omap]. fold (opened t1).
      fold (counted t1). fold (first_reads t1). rewrite Hop, Hcnt.
      split_and!; try done.
      * rewrite Hsplit. apply prefix_snoc.
      * apply prefix_nil.
      * rewrite <- Hop. exact Hreads.
      * exists pre, q, post. left. by split_and!.
  - rewrite (call_other_run a self w n Ha).
    destruct (open_all (steps_of a self) ret w n) as [[cs|e] n1 t1];
      destruct Hopen as (Hle & Hcnt & Hreads & Ho);
      cbn [opened counted first_reads omap list_omap]; fold (opened t1);
      fold (counted t1); fold (first_reads t1); rewrite Hcnt.
    + destruct Ho as [Hop Hcs].
      destruct (value_of_facts a self w n n1 cs Ha Hcs) as [Hv Hid].
      rewrite Hop. split_and!; try done.
      * apply prefix_nil.
      * rewrite <- Hop. exact Hreads.
      * intros He. eapply all_present_perm; [apply opens_of_listed|].
        by eapply handles_present.
    + destruct Ho as (He & pre & q & post & -> & Hsplit & Hop & Hq & Hpre).
      rewrite Hop. split_and!; try done.
      * rewrite Hsplit. apply prefix_snoc.
      * apply prefix_nil.
      * rewrite <- Hop. exact Hreads.
      * exists pre, q, post. left. by split_and!.
Qed.

(** A run does not depend on the identities handed out before it: the
    same calls are made, and it ends the same way. *)
Lemma call_again a self w n m :
  match call a self w n, call a self w m with
  | mkRun o1 _ t1, mkRun o2 _ t2 =>
      t1 = t2
      /\ match o1, o2 with
         | Returned _, Returned _ => True
         | Raised e1, Raised e2 => e1 = e2
         | _, _ => False
         end
  end.
Proof.
  pose proof (open_all_again (steps_of a self) w n m) as Hsame.
  destruct (decide (a = Train)) as [-> | Ha].
  - rewrite !call_train_run.
    pose proof (open_all_facts (steps_of Train self) w n) as H1.
    pose proof (open_all_facts (steps_of Train self) w m) as H2.
    destruct (open_all (steps_of Train self) ret w n) as [[cs1|e1] n1 t1],
             (open_all (steps_of Train self) ret w m) as [[cs2|e2] n2 t2];
      destruct Hsame as [-> Ho]; try done.
    destruct H1 as (_ & _ & _ & _ & Hcs1%Forall2_mux_order).
    destruct H2 as (_ & _ & _ & _ & Hcs2%Forall2_mux_order).
    destruct (len_all_again _ _ _ _ _ _ _ Hcs1 _ n1 n2 Hcs2) as [Hlo Hlt].
    destruct (len_all (mux_order cs1) ret w n1) as [[xs1|e1] k1 u1],
             (len_all (mux_order cs2) ret w n2) as [[xs2|e2] k2 u2];
      cbn [outcome trace] in *; by simplify_eq.
  - rewrite !(call_other_run a self _ _ Ha).
    destruct (open_all (steps_of a self) ret w n) as [[cs1|e1] n1 t1],
             (open_all (steps_of a self) ret w m) as [[cs2|e2] n2 t2];
      destruct Hsame as [-> Ho]; done.
Qed.

(** ** From runs to values *)

Lemma all_openable_elem w ps p :
  all_openable w ps = true -> p ∈ ps -> openable w p = true.
Proof.
  unfold all_openable. rewrite forallb_forall.
  intros H Hp%list_elem_of_In. by apply H.
Qed.

Lemma openable_eager w p :
  openable w p = true -> opens_eagerly w = true ->
  exists cut cuts, manifest w p = Some (cut :: cuts).
Proof.
  intros H He. unfold openable, nonempty in H. rewrite He in H.
  destruct (manifest w p) as [[|cut cuts]|]; [done | by eexists _, _ | done].
Qed.

Lemma deferring_openable w ps :
  opens_eagerly w = false -> all_openable w ps = true.
Proof.
  intros He. unfold all_openable. apply forallb_forall. intros p _.
  unfold openable. by rewrite He.
Qed.

Lemma entry_openable w p : openable w p = true -> entry w p = FromManifest p.
Proof.
  unfold openable, nonempty, entry, is_empty.
  destruct (opens_eagerly w); [|done].
  by destruct (manifest w p) as [[|cut cuts]|].
Qed.

Lemma all_present_inv w ps :
  all_present w ps = true -> Forall (fun p => manifest w p <> None) ps.
Proof.
  unfold all_present, present. intros H.
  apply Forall_forall. intros p Hp%list_elem_of_In.
  rewrite forallb_forall in H. specialize (H p Hp).
  by destruct (manifest w p).
Qed.

Lemma all_nonempty_openable w ps :
  all_nonempty w ps = true -> all_openable w ps = true.
Proof.
  unfold all_nonempty, all_openable, openable.
  rewrite !forallb_forall. intros H p Hp. rewrite (H p Hp). apply orb_true_r.
Qed.

Lemma all_nonempty_present w ps :
  all_nonempty w ps = true -> all_present w ps = true.
Proof.
  unfold all_nonempty, all_present, nonempty, present.
  rewrite !forallb_forall. intros H p Hp. specialize (H p Hp).
  by destruct (manifest w p) as [[|cut cuts]|].
Qed.

Lemma listed_missing w ps q :
  q ∈ ps -> manifest w q = None -> all_present w ps = true -> False.
Proof.
  intros Hq Hnone Hall%all_present_inv.
  by apply (proj1 (Forall_forall _ _) Hall q Hq).
Qed.

Lemma listed_unopenable w ps q :
  q ∈ ps -> manifest w q = None -> all_openable w ps = true ->
  opens_eagerly w = false.
Proof.
  intros Hq Hnone Hall.
  pose proof (all_openable_elem _ _ _ Hall Hq) as Hopen.
  unfold openable, nonempty in Hopen. rewrite Hnone in Hopen.
  by destruct (opens_eagerly w).
Qed.

Lemma call_trace_cuts (m : M CutSet) w n :
  trace ((c <- m ;; ret (VCuts c)) w n) = trace (m w n).
Proof. rewrite run_bind_ret. by destruct (m w n) as [[?|?] ? ?]. Qed.

Lemma call_trace_dict (m : M (gmap string CutSet)) w n :
  trace ((d <- m ;; ret (VDict d)) w n) = trace (m w n).
Proof. rewrite run_bind_ret. by destruct (m w n) as [[?|?] ? ?]. Qed.

Lemma CCuts_inj c1 c2 : CCuts c1 = CCuts c2 -> c1 = c2.
Proof. by intros [= ->]. Qed.

Lemma CDict_inj d1 d2 : CDict d1 = CDict d2 -> d1 = d2.
Proof. by intros [= ->]. Qed.

Lemma contents_FromManifest c p :
  contents c = FromManifest p -> exists oid, c = LazyCuts oid p.
Proof. destruct c as [oid q| |]; try done. intros [= ->]. by exists oid. Qed.

Lemma contents_WeightedUnion c srcs ws :
  contents c = WeightedUnion srcs ws ->
  exists oid cs, c = MuxCuts oid cs ws /\ contents <$> cs = srcs.
Proof.
  destruct c as [|oid cs ws'|]; try done. intros [= <- ->]. by exists oid, cs.
Qed.

(** A dictionary whose entries are, identities aside, the single
    manifests of a catalog with distinct names has exactly the catalog's
    names, and under each name a lazy handle on that name's file. *)
Section catalog.

Variable d : gmap string CutSet.
Variable L : list (string * PurePath).
Hypothesis names_distinct : NoDup L.*1.
Hypothesis entries :
  contents <$> d = FromManifest <$> (list_to_map L : gmap string PurePath).

Lemma catalog_dom : dom d = list_to_set L.*1.
Proof.
  rewrite <- (dom_fmap_L contents d), entries, dom_fmap_L.
  apply dom_list_to_map_L.
Qed.

Lemma catalog_size : size d = length L.
Proof.
  rewrite <- (map_size_fmap contents d), entries, map_size_fmap.
  by apply map_size_list_to_map.
Qed.

Lemma catalog_lookup k p :
  (k, p) ∈ L -> exists oid, d !! k = Some (LazyCuts oid p).
Proof.
  intros Hkp.
  assert ((contents <$> d) !! k = Some (FromManifest p)) as Hk.
  { rewrite entries, lookup_fmap.
    by rewrite (proj1 (elem_of_list_to_map L k p names_distinct) Hkp). }
  rewrite lookup_fmap in Hk.
  destruct (d !! k) as [c|]; [|done].
  injection Hk as Hk. apply contents_FromManifest in Hk as [oid ->]. eauto.
Qed.

Lemma catalog_entry k c :
  d !! k = Some c -> exists oid p, c = LazyCuts oid p /\ (k, p) ∈ L.
Proof.
  intros Hk.
  assert ((contents <$> d) !! k = Some (contents c)) as Hc
    by (by rewrite lookup_fmap, Hk).
  rewrite entries in Hc. apply lookup_fmap_Some in Hc as (p & Hp & Hlk).
  symmetry in Hp. apply contents_FromManifest in Hp as [oid ->].
  exists oid, p. split; [done|]. by apply elem_of_list_to_map.
Qed.

End catalog.

Lemma dict_of_catalog (d : gmap string CutSet) (L : list (string * PurePath)) :
  NoDup L.*1 ->
  contents <$> d = FromManifest <$> (list_to_map L : gmap string PurePath) ->
  dom d = list_to_set L.*1
  /\ size d = length L
  /\ (forall k p, (k, p) ∈ L -> exists oid, d !! k = Some (LazyCuts oid p))
  /\ (forall k c, d !! k = Some c ->
        exists oid p, c = LazyCuts oid p /\ (k, p) ∈ L).
Proof.
  intros Hnd Hd. split_and!.
  - by apply catalog_dom.
  - by apply catalog_size.
  - by apply catalog_lookup.
  - by apply catalog_entry.
Qed.

Lemma partitions_NoDup a root : NoDup (partitions_of a root).*1.
Proof. destruct a; by apply (bool_decide_unpack _); vm_compute. Qed.

Lemma speechio_catalog root :
  partitions_of SpeechioTest root =
  (fun i => (speechio_partition i, speechio_manifest root i)) <$> seq 0 27.
Proof. reflexivity. Qed.

Lemma answer_Train self w :
  answer Train self w =
  CCuts (WeightedUnion (FromManifest <$> train_manifests (fbank_dir self))
                       (records w <$> train_manifests (fbank_dir self))).
Proof. reflexivity. Qed.

Lemma in_middle {A} (pre post : list A) q : q ∈ pre ++ q :: post.
Proof. apply elem_of_app. right. apply list_elem_of_here. Qed.

(** On a disk where the manifests an accessor names can be opened, what
    it answers is a handle on each. *)
Lemma answer_dict a self w :
  returns_dict a = true ->
  all_openable w (listed a self) = true ->
  answer a self w =
  CDict (FromManifest <$>
           (list_to_map (partitions_of a (fbank_dir self)) : gmap string PurePath)).
Proof.
  intros Hdict Hopen.
  assert (answer a self w =
          CDict (entry w <$>
                   (list_to_map (partitions_of a (fbank_dir self))
                      : gmap string PurePath))) as -> by (by destruct a).
  f_equal. apply map_fmap_ext. intros k p Hkp%elem_of_list_to_map_2.
  apply entry_openable, (all_openable_elem _ _ _ Hopen).
  assert (listed a self = (partitions_of a (fbank_dir self)).*2) as ->
    by (by destruct a).
  by apply (list_elem_of_fmap_2' snd _ (k, p)).
Qed.

Lemma answer_cuts a self w :
  a <> Train -> returns_dict a = false ->
  all_openable w (listed a self) = true ->
  exists p, listed a self = [p] /\ answer a self w = CCuts (FromManifest p).
Proof.
  intros Ha Hdict Hopen.
  assert (exists p, listed a self = [p] /\ answer a self w = CCuts (entry w p))
    as (p & Hl & ->) by (destruct a; try done; by eexists).
  exists p. split; [done|]. f_equal.
  apply entry_openable, (all_openable_elem _ _ _ Hopen). rewrite Hl.
  apply list_elem_of_here.
Qed.

(** When every manifest an accessor names can be opened (and, for
    [train_cuts], is there to be counted), the accessor answers. *)
Lemma call_returns a self w n :
  all_openable w (listed a self) = true ->
  (a = Train -> all_present w (listed a self) = true) ->
  exists v, outcome (call a self w n) = Returned v
            /\ value_contents v = answer a self w
            /\ opened (trace (call a self w n)) = opens_of a self
            /\ oids_within n (next_oid (call a self w n)) v.
Proof.
  intros Hopen Hpres. pose proof (call_facts a self w n) as Hf.
  destruct (call a self w n) as [[v|e] n' tr]; cbn [outcome trace next_oid].
  - destruct Hf as (_ & _ & _ & _ & _ & Hv & _ & _ & Hop & Hid). by exists v.
  - destruct Hf as (_ & _ & _ & _ & _ & pre & q & post & Hstop). exfalso.
    destruct Hstop as [(_ & Hq & He & Hsplit & _)
                      | [(_ & Hq & He & -> & Hsplit & _)
                        | (_ & Hq & He & -> & Hsplit & _)]].
    + assert (q ∈ listed a self) as Hin
        by (rewrite <- opens_of_listed, Hsplit; apply in_middle).
      destruct (openable_eager w q (all_openable_elem _ _ _ Hopen Hin) He)
        as (cut & cuts & Hsome). congruence.
    + assert (q ∈ listed Train self) as Hin by (rewrite Hsplit; apply in_middle).
      exact (listed_missing _ _ _ Hin Hq (Hpres eq_refl)).
    + assert (q ∈ listed Train self) as Hin by (rewrite Hsplit; apply in_middle).
      destruct (openable_eager w q (all_openable_elem _ _ _ Hopen Hin) He)
        as (cut & cuts & Hsome). congruence.
Qed.

Lemma call_dict a self w n :
  returns_dict a = true ->
  all_openable w (listed a self) = true ->
  exists d, outcome (call a self w n) = Returned (VDict d)
            /\ contents <$> d =
               FromManifest <$>
                 (list_to_map (partitions_of a (fbank_dir self)) : gmap string PurePath).
Proof.
  intros Hdict Hopen.
  destruct (call_returns a self w n Hopen) as (v & Hout & Hv & _);
    [by intros -> |].
  rewrite (answer_dict a self w Hdict Hopen) in Hv.
  destruct v as [c|d]; [discriminate Hv|].
  exists d. split; [done|]. by apply CDict_inj in Hv.
Qed.

Lemma answer_holds a self w v :
  a <> Train ->
  all_openable w (listed a self) = true ->
  value_contents v = answer a self w ->
  forall q, q ∈ listed a self -> exists oid, holds v (LazyCuts oid q).
Proof.
  intros Ha Hopen Hv q Hq.
  destruct (returns_dict a) eqn:Hdict.
  - rewrite (answer_dict a self w Hdict Hopen) in Hv.
    destruct v as [c|d]; [discriminate Hv|]. apply CDict_inj in Hv.
    destruct (dict_of_catalog d _ (partitions_NoDup a (fbank_dir self)) Hv)
      as (_ & _ & Hin & _).
    assert (q ∈ (partitions_of a (fbank_dir self)).*2) as Hq'
      by (by destruct a).
    apply list_elem_of_fmap in Hq' as ([k q'] & -> & Hkq).
    destruct (Hin k q' Hkq) as [oid Hlk]. exists oid, k. done.
  - destruct (answer_cuts a self w Ha Hdict Hopen) as (p & Hl & Hans).
    rewrite Hans in Hv.
    rewrite Hl in Hq. apply list_elem_of_singleton in Hq as ->.
    destruct v as [c|d]; [|discriminate Hv].
    apply CCuts_inj, contents_FromManifest in Hv as [oid ->].
    by exists oid.
Qed.

Lemma oids_within_elem lo hi v i :
  oids_within lo hi v -> i ∈ value_oids v -> lo <= i < hi.
Proof.
  destruct v as [c|d]; cbn [oids_within value_oids].
  - intros Hall Hi. exact (proj1 (Forall_forall _ _) Hall i Hi).
  - intros Hall Hi%list_elem_of_In.
    apply in_flat_map in Hi as ([k c] & Hkc%list_elem_of_In & Hi%list_elem_of_In).
    apply elem_of_map_to_list in Hkc.
    exact (proj1 (Forall_forall _ _) (Hall k c Hkc) i Hi).
Qed.

Lemma below_join1 root a : below root (root </> a) = [a].
Proof. unfold below, joinpath. cbn. by rewrite drop_app_length. Qed.

Lemma below_join2 root a b : below root (root </> a </> b) = [a; b].
Proof.
  unfold below, joinpath. cbn. by rewrite <- app_assoc, drop_app_length.
Qed.

(** The catalog of [train_cuts] and that of [test_cuts] share no file. *)
Lemma train_test_disjoint root p :
  p ∈ train_manifests root -> p ∈ (test_manifests root).*2 -> False.
Proof.
  intros H1%(list_elem_of_fmap_2 (below root)) H2%(list_elem_of_fmap_2 (below root)).
  revert H1 H2. generalize (below root p). intros rel.
  cbn [train_manifests test_manifests fmap list_fmap snd].
  rewrite ?below_join1, ?below_join2.
  intros H1 H2.
  match type of H1 with
  | _ ∈ ?L1 =>
      match type of H2 with
      | _ ∈ ?L2 =>
          assert (Forall (fun x => x ∉ L2) L1) as Hd
            by (by apply (bool_decide_unpack _); vm_compute)
      end
  end.
  exact (proj1 (Forall_forall _ _) Hd rel H1 H2).
Qed.

Lemma opened_listed a self w n p :
  p ∈ opened (trace (call a self w n)) -> p ∈ listed a self.
Proof.
  intros Hp. pose proof (call_facts a self w n) as Hf.
  destruct (call a self w n) as [o n' tr]. destruct Hf as (_ & Hpre & _).
  rewrite <- (opens_of_listed a self). by eapply elem_of_prefix.
Qed.

(** ** Paths and their strings *)

Lemma split_slash_cons s : exists h t, split_slash s = h :: t.
Proof.
  induction s as [|c s (h & t & IH)]; cbn; [by eexists _, _|].
  destruct (is_slash c); [by eexists _, _|]. rewrite IH. by eexists _, _.
Qed.



















(** ** Sample runs *)

Example Path_normalises :
  Path "data/fbank/" = Path "data/fbank"
  /\ Path "./data//fbank" = Path "data/fbank"
  /\ parts (Path "/a//b/./c") = ["a"; "b"; "c"]
  /\ anchor (Path "/a//b/./c") = "/"
  /\ render (Path EmptyString) = ".".
Proof. by split_and!. Qed.

Example zfill_pads : zfill 2 "7" = "07" /\ zfill 2 "26" = "26" /\ zfill 2 "100" = "100".
Proof. by split_and!. Qed.

Example zfill_keeps_sign : zfill 4 "-7" = "-007".
Proof. reflexivity. Qed.

(** X13.  The padding of the first loop of [speechio_test_cuts] writes
    every index below 100 with exactly two digits. *)
Lemma zfill_two_digits i : i < 100 -> zfill 2 (format_int i) = two_digits i.
Proof.
  intros Hi.
  assert (Forall (fun i => zfill 2 (format_int i) = two_digits i) (seq 0 100))
    as Hall by (by apply (bool_decide_unpack _); vm_compute).
  apply (proj1 (Forall_forall _ _) Hall). apply elem_of_seq. lia.
Qed.

Example dataset_parts_ends :
  length dataset_parts = 27
  /\ head dataset_parts = Some "SPEECHIO_ASR_ZH00000"
  /\ last dataset_parts = Some "SPEECHIO_ASR_ZH00026".
Proof. by split_and!; vm_compute. Qed.

Example train_cuts_on_full_disk :
  exists oid srcs,
    outcome (train_cuts example_self full_disk 0)
    = Returned (MuxCuts oid srcs [2; 2; 2; 2; 2; 2; 2; 2; 2; 2; 2; 2; 2])
    /\ length srcs = 13.
Proof. by eexists _, _. Qed.

Example test_cuts_on_empty_disk_eager :
  outcome (test_cuts example_self empty_disk_eager 0)
  = Raised (FileNotFoundError (Path "data/fbank" </> "aishell_cuts_test.jsonl.gz")).
Proof. reflexivity. Qed.

(** Under the loader that leaves every check to the first read, the
    same call on the same disk answers, and the failure waits for the
    iteration. *)
Example dev_cuts_on_empty_disk_lazy :
  outcome (dev_cuts example_self empty_disk_lazy 0)
  = Returned (LazyCuts 0 (Path "data/fbank" </> "wenetspeech" </> "cuts_DEV_fixed.jsonl.gz"))
  /\ iterate empty_disk_lazy
       (LazyCuts 0 (Path "data/fbank" </> "wenetspeech" </> "cuts_DEV_fixed.jsonl.gz"))
     = Some (Raised (FileNotFoundError
                       (Path "data/fbank" </> "wenetspeech" </> "cuts_DEV_fixed.jsonl.gz"))).
Proof. by split. Qed.

Example train_cuts_with_an_empty_manifest :
  outcome (train_cuts example_self
             (disk_with_empty (Path "data/fbank" </> "stcmds_cuts_train.jsonl.gz")) 0)
  = Raised TypeError.
Proof. reflexivity. Qed.

(** ** The properties *)

(** C1.  On a valid root, one whose 13 training manifests are there and
    hold records, [train_cuts] returns a weighted union of exactly 13
    sources, the catalog's manifests in catalog order; the weights are as
    many as the sources and the i-th weight is the cardinality of the
    i-th source. *)
Theorem C1_train_cuts_weighted_union (self : t) (w : World) (n : nat) :
  all_nonempty w (train_manifests (fbank_dir self)) = true ->
  exists oid srcs weights,
    outcome (train_cuts self w n) = Returned (MuxCuts oid srcs weights)
    /\ length srcs = 13
    /\ length weights = length srcs
    /\ contents <$> srcs = FromManifest <$> train_manifests (fbank_dir self)
    /\ (forall i c, srcs !! i = Some c -> weights !! i = cardinality w c).
Proof.
  intros Hall.
  destruct (call_returns Train self w n) as (v & Hout & Hv & _);
    [by apply all_nonempty_openable | by intros _; apply all_nonempty_present |].
  unfold call in Hout. rewrite run_bind_ret in Hout.
  destruct (train_cuts self w n) as [[c|e] n' tr]; [|done].
  injection Hout as <-. rewrite answer_Train in Hv.
  apply CCuts_inj in Hv as Hc.
  apply contents_WeightedUnion in Hc as (oid & srcs & -> & Hsrcs).
  exists oid, srcs, (records w <$> train_manifests (fbank_dir self)).
  split; [done|].
  assert (length srcs = 13) as Hlen.
  { by rewrite <- (length_fmap contents srcs), Hsrcs, length_fmap. }
  split; [done|]. split; [by rewrite length_fmap, Hlen|]. split; [done|].
  intros i c Hi.
  assert ((contents <$> srcs) !! i = Some (contents c)) as Hci
    by (by rewrite list_lookup_fmap, Hi).
  rewrite Hsrcs, !list_lookup_fmap in *.
  destruct (train_manifests (fbank_dir self) !! i) as [p|] eqn:Hp; [|done].
  injection Hci as Hci. symmetry in Hci.
  apply contents_FromManifest in Hci as [oid' ->].
  apply all_nonempty_present, all_present_inv in Hall.
  pose proof (proj1 (Forall_forall _ _) Hall p
                (proj2 (list_elem_of_lookup _ _) (ex_intro _ i Hp))) as Hsome.
  unfold cardinality, records. cbn. unfold load_jsonl. cbv beta in Hsome.
  destruct (manifest w p); [reflexivity | done].
Qed.

Lemma C1_witness :
  exists oid srcs weights,
    outcome (train_cuts example_self full_disk 0) = Returned (MuxCuts oid srcs weights)
    /\ length srcs = 13
    /\ length weights = length srcs
    /\ contents <$> srcs = FromManifest <$> train_manifests (fbank_dir example_self)
    /\ (forall i c, srcs !! i = Some c -> weights !! i = cardinality full_disk c).
Proof. apply (C1_train_cuts_weighted_union example_self full_disk 0). reflexivity. Defined.

(** C2, as the program has it.  An accessor other than [train_cuts]
    reads no manifest through in its call: it logs and opens handles
    only, and all the loader looks at on opening is the first record of
    the file being opened.  [train_cuts] is the exception: it takes [len]
    of each of its handles before it returns, so whenever it returns it
    has read all 13 manifests through inside the call, and on a valid
    root it does return.  Nor are failures left to the caller's
    iteration: under a loader that looks at the file on opening, a
    missing manifest makes the call itself raise, at the open. *)
Theorem C2_only_train_cuts_reads_in_its_call (self : t) (w : World) (n : nat) :
  (forall a, a <> Train ->
     counted (trace (call a self w n)) = []
     /\ (forall p, p ∈ first_reads (trace (call a self w n)) ->
                   p ∈ opened (trace (call a self w n))))
  /\ (forall c, outcome (train_cuts self w n) = Returned c ->
        counted (trace (train_cuts self w n)) = train_manifests (fbank_dir self))
  /\ (all_nonempty w (train_manifests (fbank_dir self)) = true ->
      exists c, outcome (train_cuts self w n) = Returned c)
  /\ (forall a p,
        opens_eagerly w = true -> p ∈ listed a self -> manifest w p = None ->
        exists q,
          outcome (call a self w n) = Raised (FileNotFoundError q)
          /\ manifest w q = None
          /\ last (opened (trace (call a self w n))) = Some q
          /\ counted (trace (call a self w n)) = []).
Proof.
  split_and!.
  - intros a Ha. pose proof (call_facts a self w n) as Hf.
    destruct (call a self w n) as [o n' tr]; cbn [outcome trace].
    destruct Hf as (_ & _ & Hnone & _ & Hreads & _). split; [by apply Hnone|].
    intros p Hp. by destruct (Hreads p Hp).
  - intros c Hout. pose proof (call_facts Train self w n) as Hf.
    unfold call in Hf. rewrite run_bind_ret in Hf.
    destruct (train_cuts self w n) as [[c'|e] n' tr]; [|done].
    cbn [trace]. destruct Hf as (_ & _ & _ & _ & _ & _ & _ & Htrain & _).
    by destruct (Htrain eq_refl) as (_ & _ & ->).
  - intros Hall.
    destruct (call_returns Train self w n) as (v & Hout & _);
      [by apply all_nonempty_openable | by intros _; apply all_nonempty_present |].
    unfold call in Hout. rewrite run_bind_ret in Hout.
    destruct (train_cuts self w n) as [[c|e] n' tr]; [by exists c | done].
  - intros a p He Hp Hnone. pose proof (call_facts a self w n) as Hf.
    destruct (call a self w n) as [[v|e] n' tr]; cbn [outcome trace].
    + destruct Hf as (_ & _ & _ & _ & _ & _ & Hpres & _).
      destruct (listed_missing _ _ _ Hp Hnone (Hpres He)).
    + destruct Hf as (_ & _ & _ & _ & _ & pre & q & post & Hstop).
      destruct Hstop as [(-> & Hq & _ & _ & Hop & _ & Hcnt)
                        | [(_ & _ & He' & _) | (_ & _ & _ & _ & _ & _ & _ & Hpres & _)]].
      * exists q. split_and!; try done. rewrite Hop. apply last_snoc.
      * congruence.
      * destruct (listed_missing _ _ _ Hp Hnone Hpres).
Qed.

(** Against C2 as stated: on a disk that holds every manifest,
    [train_cuts] reads all 13 of them through before it returns; an open
    reads the first record of the file; and on an empty disk [dev_cuts]
    itself raises, at the open, not the caller's iteration. *)
Lemma C2_counterexample :
  (exists c, outcome (train_cuts example_self full_disk 0) = Returned c)
  /\ counted (trace (train_cuts example_self full_disk 0))
     = train_manifests (Path "data/fbank")
  /\ counted (trace (train_cuts example_self full_disk 0)) <> []
  /\ first_reads (trace (dev_cuts example_self full_disk 0))
     = [Path "data/fbank" </> "wenetspeech" </> "cuts_DEV_fixed.jsonl.gz"]
  /\ outcome (dev_cuts example_self empty_disk_eager 0)
     = Raised (FileNotFoundError
                 (Path "data/fbank" </> "wenetspeech" </> "cuts_DEV_fixed.jsonl.gz")).
Proof. split_and!; try done. by eexists. Qed.

Lemma C2_witness :
  counted (trace (call Dev example_self full_disk 0)) = []
  /\ counted (trace (train_cuts example_self full_disk 0))
     = train_manifests (fbank_dir example_self)
  /\ exists q,
       outcome (call Test example_self empty_disk_eager 0) = Raised (FileNotFoundError q)
       /\ manifest empty_disk_eager q = None
       /\ last (opened (trace (call Test example_self empty_disk_eager 0))) = Some q
       /\ counted (trace (call Test example_self empty_disk_eager 0)) = [].
Proof.
  destruct (C2_only_train_cuts_reads_in_its_call example_self full_disk 0)
    as (Hother & Hreads & Hret & _).
  destruct (C2_only_train_cuts_reads_in_its_call example_self empty_disk_eager 0)
    as (_ & _ & _ & Hfail).
  destruct (Hother Dev) as [Hnone _]; [discriminate|].
  split; [exact Hnone|].
  destruct (Hret eq_refl) as [c Hc].
  split; [exact (Hreads c Hc)|].
  apply (Hfail Test (Path "data/fbank" </> "aishell_cuts_test.jsonl.gz") eq_refl);
    [|reflexivity].
  apply (bool_decide_unpack _). vm_compute. reflexivity.
Defined.

(** C3.  When its manifests can be opened, [speechio_test_cuts] returns a
    dictionary of exactly 27 entries, named [SPEECHIO_ASR_ZH000] followed
    by the two-digit index, for the indices 0 to 26 inclusive; the entry
    of partition [p] is a lazy handle on [speechio_cuts_p.jsonl.gz] under
    the root. *)
Theorem C3_speechio_test_cuts_27_partitions (self : t) (w : World) (n : nat) :
  all_openable w (speechio_manifest (fbank_dir self) <$> seq 0 27) = true ->
  exists d,
    outcome (speechio_test_cuts self w n) = Returned d
    /\ size d = 27
    /\ dom d = list_to_set (speechio_partition <$> seq 0 27)
    /\ speechio_partition 0 = "SPEECHIO_ASR_ZH00000"
    /\ speechio_partition 26 = "SPEECHIO_ASR_ZH00026"
    /\ (forall i, i <= 26 ->
          speechio_manifest (fbank_dir self) i =
            fbank_dir self </>
              ("speechio_cuts_" +:+ speechio_partition i +:+ ".jsonl.gz")
          /\ exists oid,
               d !! speechio_partition i =
                 Some (LazyCuts oid (speechio_manifest (fbank_dir self) i)))
    /\ (forall k, is_Some (d !! k) ->
          exists i, i <= 26 /\ k = speechio_partition i).
Proof.
  intros Hopen.
  destruct (call_dict SpeechioTest self w n eq_refl Hopen) as (d & Hout & Hd).
  unfold call in Hout. rewrite run_bind_ret in Hout.
  destruct (speechio_test_cuts self w n) as [[d'|e] n' tr]; [|done].
  injection Hout as ->. exists d. split; [done|].
  destruct (dict_of_catalog d _ (partitions_NoDup SpeechioTest (fbank_dir self)) Hd)
    as (Hdom & Hsize & Hin & Hout).
  rewrite speechio_catalog in Hin, Hout.
  split_and!; try done.
  - intros i Hi. split; [done|]. apply Hin.
    apply (list_elem_of_fmap_2' _ _ i); [|done]. apply elem_of_seq. lia.
  - intros k [c Hk]. destruct (Hout k c Hk) as (oid & p & _ & Hkp).
    apply list_elem_of_fmap in Hkp as (i & [= -> _] & Hi%elem_of_seq).
    exists i. split; [lia | done].
Qed.

Lemma C3_witness :
  exists d,
    outcome (speechio_test_cuts example_self full_disk 0) = Returned d
    /\ size d = 27
    /\ is_Some (d !! "SPEECHIO_ASR_ZH00026").
Proof.
  destruct (C3_speechio_test_cuts_27_partitions example_self full_disk 0 eq_refl)
    as (d & Hout & Hsize & _ & _ & H26 & Hin & _).
  exists d. split; [exact Hout|]. split; [exact Hsize|].
  destruct (Hin 26 (le_n 26)) as [_ [oid Hlk]].
  rewrite H26 in Hlk. exists (LazyCuts oid (speechio_manifest (fbank_dir example_self) 26)).
  exact Hlk.
Defined.

(** C4.  When its 15 manifests can be opened, [test_cuts] returns a
    dictionary whose names are exactly the 15 partition names; under each
    name is a lazy handle on that partition's own file, and nothing else:
    no entry is a union of several manifests. *)
Theorem C4_test_cuts_fixed_partitions (self : t) (w : World) (n : nat) :
  all_openable w (test_manifests (fbank_dir self)).*2 = true ->
  exists d,
    outcome (test_cuts self w n) = Returned d
    /\ dom d = list_to_set test_partitions
    /\ size d = 15
    /\ NoDup test_partitions
    /\ (test_manifests (fbank_dir self)).*1 = test_partitions
    /\ (forall k p, (k, p) ∈ test_manifests (fbank_dir self) ->
          exists oid, d !! k = Some (LazyCuts oid p))
    /\ (forall k c, d !! k = Some c ->
          exists oid p, c = LazyCuts oid p
                        /\ (k, p) ∈ test_manifests (fbank_dir self)).
Proof.
  intros Hopen.
  destruct (call_dict Test self w n eq_refl Hopen) as (d & Hout & Hd).
  unfold call in Hout. rewrite run_bind_ret in Hout.
  destruct (test_cuts self w n) as [[d'|e] n' tr]; [|done].
  injection Hout as ->. exists d. split; [done|].
  destruct (dict_of_catalog d _ (partitions_NoDup Test (fbank_dir self)) Hd)
    as (Hdom & Hsize & Hin & Hout).
  split_and!; try done.
  by apply (bool_decide_unpack _); vm_compute.
Qed.

Lemma C4_witness :
  exists d,
    outcome (test_cuts example_self full_disk 0) = Returned d
    /\ dom d = list_to_set test_partitions
    /\ size d = 15.
Proof.
  destruct (C4_test_cuts_fixed_partitions example_self full_disk 0 eq_refl)
    as (d & Hout & Hdom & Hsize & _).
  exists d. split; [exact Hout|]. split; [exact Hdom | exact Hsize].
Defined.

(** C6.  When a manifest that an accessor names is missing, the call
    never answers with that corpus left out.  Either the call raises
    file-not-found for a missing manifest it names, and gives no value;
    or, for the accessors other than [train_cuts] under a loader that
    defers the check, it returns a value that still holds a handle on
    every manifest it names, and iterating the handle of the missing one
    raises file-not-found.  [train_cuts], and every accessor under a
    loader that checks on opening, always fails at the call. *)
Theorem C6_missing_manifest_fails
    (a : Accessor) (self : t) (w : World) (n : nat) (p : PurePath) :
  p ∈ listed a self ->
  manifest w p = None ->
  match outcome (call a self w n) with
  | Raised e =>
      exists q, e = FileNotFoundError q /\ q ∈ listed a self
                /\ manifest w q = None
  | Returned v =>
      a <> Train
      /\ opens_eagerly w = false
      /\ (forall q, q ∈ listed a self -> exists oid, holds v (LazyCuts oid q))
      /\ exists oid,
           holds v (LazyCuts oid p)
           /\ iterate w (LazyCuts oid p) = Some (Raised (FileNotFoundError p))
  end
  /\ (a = Train \/ opens_eagerly w = true ->
      exists q, outcome (call a self w n) = Raised (FileNotFoundError q)).
Proof.
  intros Hp Hnone. pose proof (call_facts a self w n) as Hf.
  destruct (call a self w n) as [[v|e] n' tr]; cbn [outcome].
  - destruct Hf as (_ & _ & _ & _ & _ & Hv & Hpres & Htrain & _).
    assert (a <> Train) as Ha.
    { intros ->. destruct (Htrain eq_refl) as [Hall _].
      exact (listed_missing _ _ _ Hp Hnone Hall). }
    assert (opens_eagerly w = false) as Hlazy.
    { destruct (opens_eagerly w); [|done].
      destruct (listed_missing _ _ _ Hp Hnone (Hpres eq_refl)). }
    pose proof (answer_holds a self w v Ha (deferring_openable _ _ Hlazy) Hv)
      as Hall.
    split; [split_and!; try done | intros [? | ?]; congruence].
    destruct (Hall p Hp) as [oid Hh]. exists oid. split; [done|].
    cbn. unfold load_jsonl. by rewrite Hnone.
  - destruct Hf as (_ & _ & _ & _ & _ & pre & q & post & Hstop).
    destruct Hstop as [(-> & Hq & _ & Hsplit & _)
                      | [(-> & Hq & _ & -> & Hsplit & _)
                        | (_ & _ & _ & -> & _ & _ & _ & Hpres & _)]].
    + assert (q ∈ listed a self) as Hin
        by (rewrite <- opens_of_listed, Hsplit; apply in_middle).
      split; [by exists q | intros _; by exists q].
    + assert (q ∈ listed Train self) as Hin by (rewrite Hsplit; apply in_middle).
      split; [by exists q | intros _; by exists q].
    + destruct (listed_missing _ _ _ Hp Hnone Hpres).
Qed.

Lemma C6_witness :
  (match outcome (call Test example_self empty_disk_eager 0) with
  | Raised e =>
      exists q, e = FileNotFoundError q /\ q ∈ listed Test example_self
                /\ manifest empty_disk_eager q = None
  | Returned v =>
      Test <> Train
      /\ opens_eagerly empty_disk_eager = false
      /\ (forall q, q ∈ listed Test example_self ->
            exists oid, holds v (LazyCuts oid q))
      /\ exists oid,
           holds v (LazyCuts oid (Path "data/fbank" </> "aishell_cuts_test.jsonl.gz"))
           /\ iterate empty_disk_eager
                (LazyCuts oid (Path "data/fbank" </> "aishell_cuts_test.jsonl.gz"))
              = Some (Raised (FileNotFoundError
                                (Path "data/fbank" </> "aishell_cuts_test.jsonl.gz")))
   end)
  /\ exists q, outcome (call Train example_self empty_disk_eager 0)
               = Raised (FileNotFoundError q).
Proof.
  split.
  - apply (C6_missing_manifest_fails Test example_self empty_disk_eager 0
             (Path "data/fbank" </> "aishell_cuts_test.jsonl.gz")).
    + apply list_elem_of_further, list_elem_of_here.
    + reflexivity.
  - apply (C6_missing_manifest_fails Train example_self empty_disk_eager 0
             (Path "data/fbank" </> "thchs_30_cuts_train.jsonl.gz")).
    + apply list_elem_of_here.
    + reflexivity.
    + by left.
Defined.

(** C7.  A second call of an accessor, made after the first one on the
    same aggregator with the disk unchanged, makes the same calls again
    (every manifest is opened anew, nothing is kept from the first call)
    and ends the same way; when both return, the two values have the same
    contents (same files, same weights, same names) and share no
    collection object. *)
Theorem C7_accessors_are_repeatable
    (a : Accessor) (self : t) (w : World) (n : nat) :
  let first := call a self w n in
  let second := call a self w (next_oid first) in
  trace second = trace first
  /\ match outcome first, outcome second with
     | Returned v1, Returned v2 =>
         value_contents v1 = value_contents v2
         /\ (forall i, i ∈ value_oids v1 -> i ∉ value_oids v2)
         /\ opened (trace second) ≡ₚ listed a self
     | Raised e1, Raised e2 => e1 = e2
     | _, _ => False
     end.
Proof.
  intros first second. subst first second.
  pose proof (call_facts a self w n) as H1.
  destruct (call a self w n) as [o1 n1 t1] eqn:E1. cbn [next_oid outcome trace].
  pose proof (call_facts a self w n1) as H2.
  pose proof (call_again a self w n n1) as H12. rewrite E1 in H12.
  destruct (call a self w n1) as [o2 n2 t2]. cbn [next_oid outcome trace].
  destruct H12 as [-> Hsame]. split; [done|].
  destruct o1 as [v1|e1], o2 as [v2|e2]; try done.
  destruct H1 as (_ & _ & _ & _ & _ & Hv1 & _ & _ & _ & Hid1).
  destruct H2 as (_ & _ & _ & _ & _ & Hv2 & _ & _ & Hop2 & Hid2).
  split_and!.
  - by rewrite Hv1, Hv2.
  - intros i Hi1 Hi2.
    pose proof (oids_within_elem _ _ _ _ Hid1 Hi1).
    pose proof (oids_within_elem _ _ _ _ Hid2 Hi2). lia.
  - rewrite Hop2. apply opens_of_listed.
Qed.

(** C9.  The development split is held twice: [dev_cuts] and the entry
    [wenetspeech_dev] of [test_cuts] are two handles on the same file,
    [wenetspeech/cuts_DEV_fixed.jsonl.gz] under the root, so that
    iterating either yields the same records. *)
Theorem C9_dev_cuts_duplicated_in_test_cuts (self : t) (w : World) (n m : nat) :
  all_openable w (test_manifests (fbank_dir self)).*2 = true ->
  exists c d c',
    outcome (dev_cuts self w n) = Returned c
    /\ outcome (test_cuts self w m) = Returned d
    /\ d !! "wenetspeech_dev" = Some c'
    /\ path_of c =
         Some (fbank_dir self </> "wenetspeech" </> "cuts_DEV_fixed.jsonl.gz")
    /\ path_of c' = path_of c
    /\ contents c' = contents c
    /\ iterate w c' = iterate w c.
Proof.
  intros Hopen.
  set (devp := fbank_dir self </> "wenetspeech" </> "cuts_DEV_fixed.jsonl.gz").
  assert (all_openable w (listed Dev self) = true) as Hdev.
  { unfold all_openable in *. rewrite forallb_forall in Hopen.
    cbn. rewrite Hopen; [done|]. apply list_elem_of_In.
    cbn. by repeat constructor. }
  destruct (call_returns Dev self w n Hdev) as (v & Hout & Hv & _); [done|].
  destruct (answer_cuts Dev self w ltac:(done) eq_refl Hdev) as (p & [= <-] & Hans).
  rewrite Hans in Hv.
  unfold call in Hout. rewrite run_bind_ret in Hout.
  destruct (dev_cuts self w n) as [[c|e] n' tr]; [|done].
  injection Hout as <-. apply CCuts_inj in Hv.
  apply contents_FromManifest in Hv as [oid ->].
  destruct (call_dict Test self w m eq_refl Hopen) as (d & Hout & Hd).
  unfold call in Hout. rewrite run_bind_ret in Hout.
  destruct (test_cuts self w m) as [[d'|e] m' tr']; [|done].
  injection Hout as ->.
  destruct (dict_of_catalog d _ (partitions_NoDup Test (fbank_dir self)) Hd)
    as (_ & _ & Hin & _).
  destruct (Hin "wenetspeech_dev" devp) as [oid' Hlk].
  { cbn. by repeat constructor. }
  by exists (LazyCuts oid devp), d, (LazyCuts oid' devp).
Qed.

Lemma C9_witness :
  exists c d c',
    outcome (dev_cuts example_self full_disk 0) = Returned c
    /\ outcome (test_cuts example_self full_disk 1) = Returned d
    /\ d !! "wenetspeech_dev" = Some c'
    /\ path_of c =
         Some (fbank_dir example_self </> "wenetspeech" </> "cuts_DEV_fixed.jsonl.gz")
    /\ path_of c' = path_of c
    /\ contents c' = contents c
    /\ iterate full_disk c' = iterate full_disk c.
Proof.
  apply (C9_dev_cuts_duplicated_in_test_cuts example_self full_disk 0 1). reflexivity.
Defined.

(** C10.  For every root, no file is opened both by [train_cuts] and by
    [test_cuts]: the two catalogs share no path, each accessor opens
    files of its own catalog only, and all of them when it returns. *)
Theorem C10_train_and_test_manifests_disjoint
    (self : t) (w w' : World) (n n' : nat) :
  (forall p, p ∈ train_manifests (fbank_dir self) ->
             p ∉ (test_manifests (fbank_dir self)).*2)
  /\ (forall p, p ∈ opened (trace (train_cuts self w n)) ->
                p ∉ opened (trace (test_cuts self w' n')))
  /\ (forall p, p ∈ opened (trace (train_cuts self w n)) ->
                p ∈ train_manifests (fbank_dir self))
  /\ (forall p, p ∈ opened (trace (test_cuts self w' n')) ->
                p ∈ (test_manifests (fbank_dir self)).*2)
  /\ match outcome (train_cuts self w n) with
     | Returned _ =>
         opened (trace (train_cuts self w n)) ≡ₚ train_manifests (fbank_dir self)
     | Raised _ => True
     end
  /\ match outcome (test_cuts self w' n') with
     | Returned _ =>
         opened (trace (test_cuts self w' n')) ≡ₚ (test_manifests (fbank_dir self)).*2
     | Raised _ => True
     end.
Proof.
  assert (forall p, p ∈ opened (trace (train_cuts self w n)) ->
                    p ∈ train_manifests (fbank_dir self)) as Htrain.
  { intros p Hp. apply (opened_listed Train self w n).
    unfold call. by rewrite call_trace_cuts. }
  assert (forall p, p ∈ opened (trace (test_cuts self w' n')) ->
                    p ∈ (test_manifests (fbank_dir self)).*2) as Htest.
  { intros p Hp. apply (opened_listed Test self w' n').
    unfold call. by rewrite call_trace_dict. }
  split_and!; try done.
  - intros p H1 H2. by apply (train_test_disjoint (fbank_dir self) p).
  - intros p H1 H2.
    apply (train_test_disjoint (fbank_dir self) p); auto.
  - pose proof (call_facts Train self w n) as Hf. unfold call in Hf.
    rewrite run_bind_ret in Hf.
    destruct (train_cuts self w n) as [[c|e] k tr]; [|done].
    cbn [outcome trace]. destruct Hf as (_ & _ & _ & _ & _ & _ & _ & _ & -> & _).
    apply (opens_of_listed Train).
  - pose proof (call_facts Test self w' n') as Hf. unfold call in Hf.
    rewrite run_bind_ret in Hf.
    destruct (test_cuts self w' n') as [[c|e] k tr]; [|done].
    cbn [outcome trace]. destruct Hf as (_ & _ & _ & _ & _ & _ & _ & _ & -> & _).
    apply (opens_of_listed Test).
Qed.




Lemma narrow_cuts_run (msg1 msg2 : string) (p : PurePath) w n :
  (logging_info msg1 ;; logging_info msg2 ;;
   c <- load_manifest_lazy p ;; ret c) w n =
  match load_manifest_lazy p w n with
  | mkRun o n' tr => mkRun o n' (Log msg1 :: Log msg2 :: tr)
  end.
Proof.
  rewrite !bind_run. unfold logging_info, emit. rewrite bind_run, run_bind_ret.
  by destruct (load_manifest_lazy p w n) as [[c|e] n' tr].
Qed.

Lemma narrow_dict_run (msg1 msg2 key : string) (p : PurePath) w n :
  (logging_info msg1 ;; logging_info msg2 ;;
   c <- load_manifest_lazy p ;; ret (<[key := c]> (∅ : gmap string CutSet))) w n =
  match load_manifest_lazy p w n with
  | mkRun (Returned c) n' tr =>
      mkRun (Returned ({[ key := c ]} : gmap string CutSet)) n'
            (Log msg1 :: Log msg2 :: tr)
  | mkRun (Raised e) n' tr => mkRun (Raised e) n' (Log msg1 :: Log msg2 :: tr)
  end.
Proof.
  rewrite !bind_run. unfold logging_info, emit. rewrite bind_run, run_bind_ret.
  by destruct (load_manifest_lazy p w n) as [[c|e] n' tr].
Qed.

(** What a narrow accessor that answers with a bare collection does:
    it opens its manifest and no other, and answers a lazy handle on it
    when the manifest can be opened. *)
Lemma narrow_cuts_facts (m : M CutSet) (msg1 msg2 : string) (p : PurePath) w n :
  (forall w n, m w n =
     (logging_info msg1 ;; logging_info msg2 ;;
      c <- load_manifest_lazy p ;; ret c) w n) ->
  opened (trace (m w n)) = [p]
  /\ (openable w p = true ->
      exists oid, outcome (m w n) = Returned (LazyCuts oid p)).
Proof.
  intros ->. rewrite narrow_cuts_run, load_run. unfold openable, nonempty.
  destruct (opens_eagerly w); [|split; [done | by eexists]].
  destruct (manifest w p) as [[|cut cuts]|]; (split; [done|]); try done.
  by eexists.
Qed.

Lemma narrow_dict_facts (m : M (gmap string CutSet)) (msg1 msg2 key : string)
    (p : PurePath) w n :
  (forall w n, m w n =
     (logging_info msg1 ;; logging_info msg2 ;;
      c <- load_manifest_lazy p ;;
      ret (<[key := c]> (∅ : gmap string CutSet))) w n) ->
  opened (trace (m w n)) = [p]
  /\ (openable w p = true ->
      exists oid, outcome (m w n) = Returned {[ key := LazyCuts oid p ]})
  /\ (forall d, outcome (m w n) = Returned d -> exists c, d = {[ key := c ]}).
Proof.
  intros ->. rewrite narrow_dict_run, load_run. unfold openable, nonempty.
  destruct (opens_eagerly w).
  - destruct (manifest w p) as [[|cut cuts]|]; split_and!; try done.
    + intros d [= <-]. by eexists.
    + by eexists.
    + intros d [= <-]. by eexists.
  - split_and!; [done | by eexists |]. intros d [= <-]. by eexists.
Qed.

(** C8.  The seven narrow accessors.  Each opens the one manifest of its
    own corpus and no other, whatever the disk holds.  When that manifest
    can be opened, the four train and dev ones answer a bare lazy handle
    on it, and the three test ones a dictionary of a single entry, a lazy
    handle on it under the name [aishell_test], [aishell2_test] or
    [wenetspeech-meeting_test]; and whenever a test one answers, it is
    with a dictionary of that single name. *)
Theorem C8_narrow_accessor_shapes (self : t) (w : World) (n : nat) :
  let root := fbank_dir self in
  (opened (trace (aishell_train_cuts self w n)) =
     [root </> "aishell_cuts_train.jsonl.gz"]
   /\ (openable w (root </> "aishell_cuts_train.jsonl.gz") = true ->
       exists oid, outcome (aishell_train_cuts self w n) =
                     Returned (LazyCuts oid (root </> "aishell_cuts_train.jsonl.gz"))))
  /\ (opened (trace (aishell_dev_cuts self w n)) =
        [root </> "aishell_cuts_dev.jsonl.gz"]
      /\ (openable w (root </> "aishell_cuts_dev.jsonl.gz") = true ->
          exists oid, outcome (aishell_dev_cuts self w n) =
                        Returned (LazyCuts oid (root </> "aishell_cuts_dev.jsonl.gz"))))
  /\ (opened (trace (aishell2_train_cuts self w n)) =
        [root </> "aishell2_cuts_train.jsonl.gz"]
      /\ (openable w (root </> "aishell2_cuts_train.jsonl.gz") = true ->
          exists oid, outcome (aishell2_train_cuts self w n) =
                        Returned (LazyCuts oid (root </> "aishell2_cuts_train.jsonl.gz"))))
  /\ (opened (trace (aishell2_dev_cuts self w n)) =
        [root </> "aishell2_cuts_dev.jsonl.gz"]
      /\ (openable w (root </> "aishell2_cuts_dev.jsonl.gz") = true ->
          exists oid, outcome (aishell2_dev_cuts self w n) =
                        Returned (LazyCuts oid (root </> "aishell2_cuts_dev.jsonl.gz"))))
  /\ (opened (trace (aishell_test_cuts self w n)) =
        [root </> "aishell_cuts_test.jsonl.gz"]
      /\ (openable w (root </> "aishell_cuts_test.jsonl.gz") = true ->
          exists oid, outcome (aishell_test_cuts self w n) =
                        Returned {[ "aishell_test" :=
                                    LazyCuts oid (root </> "aishell_cuts_test.jsonl.gz") ]})
      /\ (forall d, outcome (aishell_test_cuts self w n) = Returned d ->
            exists c, d = {[ "aishell_test" := c ]}))
  /\ (opened (trace (aishell2_test_cuts self w n)) =
        [root </> "aishell2_cuts_test.jsonl.gz"]
      /\ (openable w (root </> "aishell2_cuts_test.jsonl.gz") = true ->
          exists oid, outcome (aishell2_test_cuts self w n) =
                        Returned {[ "aishell2_test" :=
                                    LazyCuts oid (root </> "aishell2_cuts_test.jsonl.gz") ]})
      /\ (forall d, outcome (aishell2_test_cuts self w n) = Returned d ->
            exists c, d = {[ "aishell2_test" := c ]}))
  /\ (opened (trace (wenetspeech_test_meeting_cuts self w n)) =
        [root </> "wenetspeech" </> "cuts_TEST_MEETING.jsonl.gz"]
      /\ (openable w (root </> "wenetspeech" </> "cuts_TEST_MEETING.jsonl.gz") = true ->
          exists oid, outcome (wenetspeech_test_meeting_cuts self w n) =
                        Returned {[ "wenetspeech-meeting_test" :=
                                    LazyCuts oid (root </> "wenetspeech" </> "cuts_TEST_MEETING.jsonl.gz") ]})
      /\ (forall d, outcome (wenetspeech_test_meeting_cuts self w n) = Returned d ->
            exists c, d = {[ "wenetspeech-meeting_test" := c ]})).
Proof.
  intros root. subst root. split_and!.
  all: first [ eapply narrow_cuts_facts | eapply narrow_dict_facts ];
       reflexivity.
Qed.

(** On a disk that holds AISHELL-1 only, the accessors of AISHELL-1
    answer, each in its own shape. *)
Lemma C8_witness :
  (exists oid, outcome (aishell_train_cuts example_self aishell_only_disk 0) =
                 Returned (LazyCuts oid (Path "data/fbank" </> "aishell_cuts_train.jsonl.gz")))
  /\ (exists oid, outcome (aishell_test_cuts example_self aishell_only_disk 0) =
                    Returned {[ "aishell_test" :=
                                LazyCuts oid (Path "data/fbank" </> "aishell_cuts_test.jsonl.gz") ]})
  /\ opened (trace (aishell2_train_cuts example_self aishell_only_disk 0)) =
       [Path "data/fbank" </> "aishell2_cuts_train.jsonl.gz"].
Proof.
  destruct (C8_narrow_accessor_shapes example_self aishell_only_disk 0)
    as ([_ Htrain] & _ & [Hop2 _] & _ & (_ & Htest & _) & _).
  split; [exact (Htrain eq_refl)|]. split; [exact (Htest eq_refl) | exact Hop2].
Defined.

(** ** Further properties *)

Lemma listed_below a self :
  Forall (fun p => anchor p = anchor (fbank_dir self)
                   /\ parts p = (parts (fbank_dir self) ++ below (fbank_dir self) p)%list
                   /\ manifest_place (below (fbank_dir self) p) = true)
         (listed a self).
Proof.
  destruct self as [root]. cbn [fbank_dir].
  destruct a;
    cbv [listed partitions_of train_manifests test_manifests speechio_files
         speechio_partitions zip_with fmap list_fmap snd fbank_dir].
  all: repeat (apply Forall_cons; split;
               [ rewrite ?below_join2, ?below_join1; split_and!;
                 [ reflexivity
                 | cbn; by rewrite <- ?app_assoc
                 | by vm_compute ] | ]).
  all: apply Forall_nil_2.
Qed.

(** X3.  Whatever the disk holds, an accessor only ever opens files
    below its root: the path keeps the root's anchor and components and
    adds one manifest name ending in [.jsonl.gz], alone or inside
    [kespeech] or [wenetspeech]; the names added hold no separator and are
    not dot names, so no path leaves the root. *)
Theorem opened_paths_stay_under_root
    (a : Accessor) (self : t) (w : World) (n : nat) (p : PurePath) :
  p ∈ opened (trace (call a self w n)) ->
  anchor p = anchor (fbank_dir self)
  /\ parts p = (parts (fbank_dir self) ++ below (fbank_dir self) p)%list
  /\ manifest_place (below (fbank_dir self) p) = true.
Proof.
  intros Hp%opened_listed.
  exact (proj1 (Forall_forall _ _) (listed_below a self) p Hp).
Qed.

Lemma listed_NoDup a self : NoDup (listed a self).
Proof.
  destruct self as [root]. apply (NoDup_fmap_1 (below root)).
  destruct a;
    cbv [listed partitions_of train_manifests test_manifests speechio_files
         speechio_partitions zip_with fmap list_fmap snd fbank_dir].
  all: rewrite ?below_join2, ?below_join1.
  all: by apply (bool_decide_unpack _); vm_compute.
Qed.

(** X4.  The manifests an accessor names are pairwise distinct files, and
    in no run, complete or cut short by a failure, is a manifest opened
    twice or counted twice. *)
Theorem no_manifest_opened_twice (a : Accessor) (self : t) (w : World) (n : nat) :
  NoDup (listed a self)
  /\ NoDup (opened (trace (call a self w n)))
  /\ NoDup (counted (trace (call a self w n))).
Proof.
  pose proof (listed_NoDup a self) as Hnd. split; [done|].
  pose proof (call_facts a self w n) as Hf.
  destruct (call a self w n) as [o n' tr]. cbn [trace].
  destruct Hf as (_ & [k Hk] & _ & [k' Hk'] & _).
  rewrite <- (opens_of_listed a self) in Hnd at 1.
  rewrite Hk in Hnd. apply NoDup_app in Hnd as [Hnd _].
  split; [done|].
  pose proof (listed_NoDup a self) as Hnd'. rewrite Hk' in Hnd'.
  by apply NoDup_app in Hnd' as [Hnd' _].
Qed.

Lemma answer_same_counts self w w' :
  (forall p, p ∈ train_manifests (fbank_dir self) -> records w p = records w' p) ->
  answer Train self w = answer Train self w'.
Proof.
  intros Hrec. rewrite !answer_Train. do 2 f_equal.
  apply list_eq_Forall2, Forall2_fmap, Forall_Forall2_diag, Forall_forall.
  exact Hrec.
Qed.

(** On disks where its manifests can be opened, what an accessor other
    than [train_cuts] answers is the same. *)
Lemma answer_other_disk a self w w' :
  a <> Train ->
  all_openable w (listed a self) = true ->
  all_openable w' (listed a self) = true ->
  answer a self w = answer a self w'.
Proof.
  intros Ha Hw Hw'. destruct (returns_dict a) eqn:Hdict.
  - by rewrite (answer_dict a self w Hdict Hw), (answer_dict a self w' Hdict Hw').
  - destruct (answer_cuts a self w Ha Hdict Hw) as (p & Hl & ->).
    destruct (answer_cuts a self w' Ha Hdict Hw') as (p' & Hl' & ->).
    congruence.
Qed.

Lemma all_openable_sub w ps qs :
  all_openable w ps = true -> (forall q, q ∈ qs -> q ∈ ps) ->
  all_openable w qs = true.
Proof.
  unfold all_openable. rewrite !forallb_forall.
  intros H Hsub q Hq%list_elem_of_In. apply H, list_elem_of_In, Hsub, Hq.
Qed.

Lemma cuts_returns a self w n (m : M CutSet) :
  call a self = (c <- m ;; ret (VCuts c)) ->
  all_openable w (listed a self) = true ->
  (a = Train -> all_present w (listed a self) = true) ->
  exists c, outcome (m w n) = Returned c
            /\ CCuts (contents c) = answer a self w.
Proof.
  intros Hcall Hopen Hpres.
  destruct (call_returns a self w n Hopen Hpres) as (v & Hout & Hv & _).
  rewrite Hcall, run_bind_ret in Hout.
  destruct (m w n) as [[c|e] n' tr]; [|done].
  injection Hout as <-. by exists c.
Qed.

Lemma narrow_cuts_returns a self w n (m : M CutSet) p :
  call a self = (c <- m ;; ret (VCuts c)) ->
  a <> Train -> listed a self = [p] ->
  openable w p = true ->
  exists oid, outcome (m w n) = Returned (LazyCuts oid p).
Proof.
  intros Hcall Ha Hl Hp.
  assert (all_openable w (listed a self) = true) as Hopen
    by (rewrite Hl; cbn; by rewrite Hp).
  destruct (cuts_returns a self w n m Hcall Hopen) as (c & Hout & Hc); [done|].
  destruct (answer_cuts a self w Ha ltac:(by destruct a) Hopen) as (p' & Hl' & Hans).
  rewrite Hans in Hc. apply CCuts_inj, contents_FromManifest in Hc as [oid ->].
  exists oid. congruence.
Qed.

Lemma dict_returns a self w n (m : M (gmap string CutSet)) :
  call a self = (d <- m ;; ret (VDict d)) ->
  returns_dict a = true ->
  all_openable w (listed a self) = true ->
  exists d, outcome (m w n) = Returned d
            /\ contents <$> d =
               FromManifest <$>
                 (list_to_map (partitions_of a (fbank_dir self)) : gmap string PurePath).
Proof.
  intros Hcall Hdict Hopen.
  destruct (call_dict a self w n Hdict Hopen) as (d & Hout & Hd).
  rewrite Hcall, run_bind_ret in Hout.
  destruct (m w n) as [[d'|e] n' tr]; [|done].
  injection Hout as ->. by exists d.
Qed.

(** X8.  What an accessor other than [train_cuts] answers does not depend
    on the disk: on any two disks where its manifests can be opened it
    returns values of equal contents (same names, same files). *)
Theorem answer_independent_of_disk
    (a : Accessor) (self : t) (w w' : World) (n n' : nat) :
  a <> Train ->
  all_openable w (listed a self) = true ->
  all_openable w' (listed a self) = true ->
  exists v v',
    outcome (call a self w n) = Returned v
    /\ outcome (call a self w' n') = Returned v'
    /\ value_contents v = value_contents v'.
Proof.
  intros Ha Hw Hw'.
  destruct (call_returns a self w n Hw) as (v & Hout & Hv & _); [done|].
  destruct (call_returns a self w' n' Hw') as (v' & Hout' & Hv' & _); [done|].
  exists v, v'. split_and!; try done.
  by rewrite Hv, Hv', (answer_other_disk a self w w').
Qed.

(** X9.  [train_cuts] depends on the disk only through the number of
    records of its 13 manifests: on two disks where all of them hold
    records, and as many on the one as on the other, it returns unions of
    equal contents, weights included. *)
Theorem train_cuts_depends_on_record_counts_only
    (self : t) (w w' : World) (n n' : nat) :
  all_nonempty w (train_manifests (fbank_dir self)) = true ->
  all_nonempty w' (train_manifests (fbank_dir self)) = true ->
  (forall p, p ∈ train_manifests (fbank_dir self) -> records w p = records w' p) ->
  exists c c',
    outcome (train_cuts self w n) = Returned c
    /\ outcome (train_cuts self w' n') = Returned c'
    /\ contents c = contents c'.
Proof.
  intros Hw Hw' Hrec.
  destruct (cuts_returns Train self w n (train_cuts self) eq_refl)
    as (c & Hout & Hc);
    [by apply all_nonempty_openable | by intros _; apply all_nonempty_present |].
  destruct (cuts_returns Train self w' n' (train_cuts self) eq_refl)
    as (c' & Hout' & Hc');
    [by apply all_nonempty_openable | by intros _; apply all_nonempty_present |].
  exists c, c'. split_and!; try done.
  apply CCuts_inj. by rewrite Hc, Hc', (answer_same_counts self w w' Hrec).
Qed.

(** X5.  The narrow test and dev accessors agree with [test_cuts]: the
    one-entry dictionaries of [aishell_test_cuts] and
    [wenetspeech_test_meeting_cuts] are, identities aside, sub-dictionaries
    of the one [test_cuts] returns, and [aishell_dev_cuts] and
    [aishell2_dev_cuts] return the files [test_cuts] holds under
    [aishell_dev] and [aishell-2_dev]. *)
Theorem narrow_test_accessors_agree_with_test_cuts
    (self : t) (w : World) (n m : nat) :
  all_openable w (test_manifests (fbank_dir self)).*2 = true ->
  exists dt d1 dw c1 c2,
    outcome (test_cuts self w n) = Returned dt
    /\ outcome (aishell_test_cuts self w m) = Returned d1
    /\ outcome (wenetspeech_test_meeting_cuts self w m) = Returned dw
    /\ outcome (aishell_dev_cuts self w m) = Returned c1
    /\ outcome (aishell2_dev_cuts self w m) = Returned c2
    /\ contents <$> d1 ⊆ contents <$> dt
    /\ contents <$> dw ⊆ contents <$> dt
    /\ (contents <$> dt) !! "aishell_dev" = Some (contents c1)
    /\ (contents <$> dt) !! "aishell-2_dev" = Some (contents c2).
Proof.
  intros Hopen.
  assert (forall q, q ∈ listed Test self -> openable w q = true) as Hq
    by (intros q; by apply all_openable_elem).
  assert (forall a, (forall q, q ∈ listed a self -> q ∈ listed Test self) ->
                    all_openable w (listed a self) = true) as Hsub
    by (intros a Ha; by apply (all_openable_sub w (listed Test self))).
  destruct (dict_returns Test self w n (test_cuts self) eq_refl eq_refl Hopen)
    as (dt & Ht & Hdt).
  destruct (dict_returns AishellTest self w m (aishell_test_cuts self) eq_refl
              eq_refl)
    as (d1 & H1 & Hd1).
  { apply Hsub. intros q ->%list_elem_of_singleton. cbn. by repeat constructor. }
  destruct (dict_returns WenetspeechTestMeeting self w m
              (wenetspeech_test_meeting_cuts self) eq_refl eq_refl)
    as (dw & Hw & Hdw).
  { apply Hsub. intros q ->%list_elem_of_singleton. cbn. by repeat constructor. }
  destruct (narrow_cuts_returns AishellDev self w m (aishell_dev_cuts self) _
              eq_refl ltac:(done) eq_refl)
    as (o1 & Hc1).
  { apply Hq. cbn. by repeat constructor. }
  destruct (narrow_cuts_returns Aishell2Dev self w m (aishell2_dev_cuts self) _
              eq_refl ltac:(done) eq_refl)
    as (o2 & Hc2).
  { apply Hq. cbn. by repeat constructor. }
  eexists dt, d1, dw, _, _. rewrite Hdt, Hd1, Hdw.
  split_and!; try done.
  - apply map_subseteq_spec.
    intros k x (p & <- & Hkp%elem_of_list_to_map_2)%lookup_fmap_Some.
    apply list_elem_of_singleton in Hkp as [= -> ->]. reflexivity.
  - apply map_subseteq_spec.
    intros k x (p & <- & Hkp%elem_of_list_to_map_2)%lookup_fmap_Some.
    apply list_elem_of_singleton in Hkp as [= -> ->]. reflexivity.
Qed.

(** X6.  [aishell2_test_cuts] is the odd one out: its key
    [aishell2_test] is not a key of [test_cuts], which holds the same
    file, [aishell2_cuts_test.jsonl.gz], under [aishell-2_test]. *)
Theorem aishell2_test_cuts_key_is_not_a_test_cuts_key
    (self : t) (w : World) (n m : nat) :
  all_openable w (test_manifests (fbank_dir self)).*2 = true ->
  exists dt d2 c c',
    outcome (test_cuts self w n) = Returned dt
    /\ outcome (aishell2_test_cuts self w m) = Returned d2
    /\ d2 !! "aishell2_test" = Some c
    /\ dt !! "aishell2_test" = None
    /\ dt !! "aishell-2_test" = Some c'
    /\ contents c' = contents c
    /\ path_of c = Some (fbank_dir self </> "aishell2_cuts_test.jsonl.gz").
Proof.
  intros Hopen.
  destruct (dict_returns Test self w n (test_cuts self) eq_refl eq_refl Hopen)
    as (dt & Ht & Hdt).
  destruct (dict_returns Aishell2Test self w m (aishell2_test_cuts self) eq_refl
              eq_refl)
    as (d2 & H2 & Hd2).
  { apply (all_openable_sub w (listed Test self)); [done|].
    intros q ->%list_elem_of_singleton. cbn. by repeat constructor. }
  set (p := fbank_dir self </> "aishell2_cuts_test.jsonl.gz").
  destruct (catalog_lookup d2 _ (partitions_NoDup Aishell2Test _) Hd2
              "aishell2_test" p) as [oid Hc]; [by apply list_elem_of_singleton|].
  destruct (catalog_lookup dt _ (partitions_NoDup Test _) Hdt
              "aishell-2_test" p) as [oid' Hc']; [cbn; by repeat constructor|].
  exists dt, d2, (LazyCuts oid p), (LazyCuts oid' p). split_and!; try done.
  assert ((contents <$> dt) !! "aishell2_test" = None) as Hnone
    by (by rewrite Hdt).
  rewrite lookup_fmap in Hnone. by destruct (dt !! "aishell2_test").
Qed.

(** X7.  The narrow train accessors agree with [train_cuts]: on a root
    whose 13 training manifests hold records, [aishell_train_cuts] and
    [aishell2_train_cuts] return the files that are sources 1 and 2
    (counting from 0) of the union, and the weights of these sources are
    the cardinalities of what the narrow accessors return. *)
Theorem narrow_train_accessors_agree_with_train_cuts
    (self : t) (w : World) (n m : nat) :
  all_nonempty w (train_manifests (fbank_dir self)) = true ->
  exists oid srcs weights c1 c2,
    outcome (train_cuts self w n) = Returned (MuxCuts oid srcs weights)
    /\ outcome (aishell_train_cuts self w m) = Returned c1
    /\ outcome (aishell2_train_cuts self w m) = Returned c2
    /\ (contents <$> srcs) !! 1 = Some (contents c1)
    /\ (contents <$> srcs) !! 2 = Some (contents c2)
    /\ weights !! 1 = cardinality w c1
    /\ weights !! 2 = cardinality w c2.
Proof.
  intros Hne. pose proof (all_nonempty_openable _ _ Hne) as Hopen.
  pose proof (all_nonempty_present _ _ Hne) as Hall.
  destruct (cuts_returns Train self w n (train_cuts self) eq_refl Hopen)
    as (c & Hc & Hcc); [done|].
  rewrite answer_Train in Hcc. apply CCuts_inj in Hcc.
  apply contents_WeightedUnion in Hcc as (oid & srcs & -> & Hsrcs).
  destruct (narrow_cuts_returns AishellTrain self w m (aishell_train_cuts self) _
              eq_refl ltac:(done) eq_refl)
    as (o1 & Hc1).
  { apply (all_openable_elem _ _ _ Hopen). cbn. by repeat constructor. }
  destruct (narrow_cuts_returns Aishell2Train self w m (aishell2_train_cuts self) _
              eq_refl ltac:(done) eq_refl)
    as (o2 & Hc2).
  { apply (all_openable_elem _ _ _ Hopen). cbn. by repeat constructor. }
  exists oid, srcs, (records w <$> train_manifests (fbank_dir self)),
         (LazyCuts o1 (fbank_dir self </> "aishell_cuts_train.jsonl.gz")),
         (LazyCuts o2 (fbank_dir self </> "aishell2_cuts_train.jsonl.gz")).
  rewrite Hsrcs. split_and!; try done.
  all: apply all_present_inv in Hall.
  all: unfold cardinality, records; cbn; unfold load_jsonl.
  all: match goal with
       | |- context [manifest ?w0 ?p] =>
           pose proof (proj1 (Forall_forall _ _) Hall p) as Hp;
           cbv beta in Hp;
           destruct (manifest w0 p) eqn:E; [reflexivity|]
       end.
  all: exfalso; apply Hp; [|done].
  all: cbv [train_manifests];
       repeat first [apply list_elem_of_here | apply list_elem_of_further].
Qed.

Lemma find_absent_split w pre q post :
  all_present w pre = true -> manifest w q = None ->
  find (absent w) (pre ++ q :: post) = Some q.
Proof.
  intros Hpre Hq. induction pre as [|p pre IH]; cbn.
  - unfold absent, present. by rewrite Hq.
  - cbn in Hpre. apply andb_true_iff in Hpre as [Hp Hpre].
    unfold absent at 1. rewrite Hp. cbn. by apply IH.
Qed.

Lemma find_absent_none w ps :
  all_present w ps = true -> find (absent w) ps = None.
Proof.
  induction ps as [|p ps IH]; [done|]. cbn.
  intros [Hp Hps]%andb_true_iff. unfold absent at 1. rewrite Hp. cbn. by apply IH.
Qed.




(** X1.  Under a loader that looks at the file on opening, an accessor
    fails fast: when one of its manifests is absent it raises
    file-not-found for the first absent one in opening order; that
    manifest is the last one it tried to open, and no manifest is
    counted.  When none is absent it opens them all; the accessors other
    than [train_cuts] then return, and [train_cuts] returns unless a
    manifest holds no record, in which case it raises a type error. *)
Theorem checking_loader_stops_at_first_absent_manifest
    (a : Accessor) (self : t) (w : World) (n : nat) :
  opens_eagerly w = true ->
  match find (absent w) (opens_of a self) with
  | Some q =>
      outcome (call a self w n) = Raised (FileNotFoundError q)
      /\ last (opened (trace (call a self w n))) = Some q
      /\ opened (trace (call a self w n)) `prefix_of` opens_of a self
      /\ counted (trace (call a self w n)) = []
  | None =>
      opened (trace (call a self w n)) = opens_of a self
      /\ match outcome (call a self w n) with
         | Returned _ => True
         | Raised e =>
             a = Train /\ e = TypeError
             /\ exists q, q ∈ listed a self /\ manifest w q = Some []
         end
  end.
Proof.
  intros Heager.
  pose proof (call_facts a self w n) as Hf.
  destruct (call a self w n) as [[v|e] n' tr]; cbn [outcome trace].
  - destruct Hf as (_ & _ & _ & _ & _ & _ & Hpres & _ & Hop & _).
    rewrite find_absent_none; [done|].
    eapply all_present_perm; [symmetry; apply opens_of_listed | by apply Hpres].
  - destruct Hf as (_ & Hpre & _ & _ & _ & pre & q & post & Hstop).
    destruct Hstop as [(-> & Hq & _ & Hsplit & Hop & Hall & Hcnt)
                      | [(_ & _ & He & _)
                        | (-> & Hq & _ & -> & Hsplit & _ & _ & Hpres & Hop)]].
    + rewrite Hsplit, (find_absent_split _ _ _ _ Hall Hq).
      split_and!; try done.
      * rewrite Hop. apply last_snoc.
      * by rewrite <- Hsplit.
    + congruence.
    + rewrite find_absent_none.
      * split; [done|]. split_and!; try done. exists q. split; [|done].
        rewrite Hsplit. apply in_middle.
      * eapply all_present_perm; [symmetry; apply opens_of_listed | done].
Qed.


(** ** Further properties, on the sample disks *)

Lemma checking_loader_stops_at_first_absent_manifest_witness :
  outcome (call Test example_self
             (disk_without (Path "data/fbank" </> "aishell2_cuts_test.jsonl.gz") true) 0)
  = Raised (FileNotFoundError (Path "data/fbank" </> "aishell2_cuts_test.jsonl.gz"))
  /\ opened (trace (call Test example_self
                      (disk_without (Path "data/fbank" </> "aishell2_cuts_test.jsonl.gz") true) 0))
     = [ Path "data/fbank" </> "aishell_cuts_test.jsonl.gz";
         Path "data/fbank" </> "aishell_cuts_dev.jsonl.gz";
         Path "data/fbank" </> "aishell2_cuts_test.jsonl.gz" ].
Proof.
  split.
  - exact (proj1 (checking_loader_stops_at_first_absent_manifest Test example_self
                    (disk_without (Path "data/fbank" </> "aishell2_cuts_test.jsonl.gz") true)
                    0 eq_refl)).
  - reflexivity.
Defined.


Lemma opened_paths_stay_under_root_witness :
  parts (Path "data/fbank" </> "wenetspeech" </> "cuts_DEV_fixed.jsonl.gz")
  = ["data"; "fbank"; "wenetspeech"; "cuts_DEV_fixed.jsonl.gz"]
  /\ manifest_place
       (below (fbank_dir example_self)
              (Path "data/fbank" </> "wenetspeech" </> "cuts_DEV_fixed.jsonl.gz")) = true.
Proof.
  destruct (opened_paths_stay_under_root Dev example_self full_disk 0
              (Path "data/fbank" </> "wenetspeech" </> "cuts_DEV_fixed.jsonl.gz"))
    as (_ & Hparts & Hplace).
  - apply list_elem_of_here.
  - split; [exact Hparts | exact Hplace].
Defined.

Lemma narrow_test_accessors_agree_with_test_cuts_witness :
  exists dt d1,
    outcome (test_cuts example_self full_disk 0) = Returned dt
    /\ outcome (aishell_test_cuts example_self full_disk 15) = Returned d1
    /\ contents <$> d1 ⊆ contents <$> dt.
Proof.
  destruct (narrow_test_accessors_agree_with_test_cuts example_self full_disk 0 15 eq_refl)
    as (dt & d1 & _ & _ & _ & Ht & H1 & _ & _ & _ & Hsub & _).
  exists dt, d1. split; [exact Ht|]. split; [exact H1 | exact Hsub].
Defined.

Lemma aishell2_test_cuts_key_is_not_a_test_cuts_key_witness :
  exists dt d2 c,
    outcome (test_cuts example_self full_disk 0) = Returned dt
    /\ outcome (aishell2_test_cuts example_self full_disk 15) = Returned d2
    /\ d2 !! "aishell2_test" = Some c
    /\ dt !! "aishell2_test" = None.
Proof.
  destruct (aishell2_test_cuts_key_is_not_a_test_cuts_key example_self full_disk 0 15 eq_refl)
    as (dt & d2 & c & _ & Ht & H2 & Hc & Hnone & _).
  exists dt, d2, c. split; [exact Ht|]. split; [exact H2|]. split; [exact Hc | exact Hnone].
Defined.

Lemma narrow_train_accessors_agree_with_train_cuts_witness :
  exists oid srcs weights c1,
    outcome (train_cuts example_self full_disk 0) = Returned (MuxCuts oid srcs weights)
    /\ outcome (aishell_train_cuts example_self full_disk 14) = Returned c1
    /\ (contents <$> srcs) !! 1 = Some (contents c1)
    /\ weights !! 1 = cardinality full_disk c1.
Proof.
  destruct (narrow_train_accessors_agree_with_train_cuts example_self full_disk 0 14 eq_refl)
    as (oid & srcs & ws & c1 & _ & Ht & H1 & _ & Hs & _ & Hw & _).
  exists oid, srcs, ws, c1.
  split; [exact Ht|]. split; [exact H1|]. split; [exact Hs | exact Hw].
Defined.

Lemma answer_independent_of_disk_witness :
  exists v v',
    outcome (call Test example_self full_disk 0) = Returned v
    /\ outcome (call Test example_self
                  (disk_without (Path "data/fbank" </> "thchs_30_cuts_train.jsonl.gz") true) 7)
       = Returned v'
    /\ value_contents v = value_contents v'.
Proof.
  apply (answer_independent_of_disk Test example_self full_disk
           (disk_without (Path "data/fbank" </> "thchs_30_cuts_train.jsonl.gz") true) 0 7).
  - discriminate.
  - reflexivity.
  - reflexivity.
Defined.

Lemma train_cuts_depends_on_record_counts_only_witness :
  exists c c',
    outcome (train_cuts example_self full_disk 0) = Returned c
    /\ outcome (train_cuts example_self
                  (disk_without (Path "data/fbank" </> "aishell_cuts_test.jsonl.gz") true) 3)
       = Returned c'
    /\ contents c = contents c'.
Proof.
  apply (train_cuts_depends_on_record_counts_only example_self full_disk
           (disk_without (Path "data/fbank" </> "aishell_cuts_test.jsonl.gz") true) 0 3).
  - reflexivity.
  - reflexivity.
  - intros p Hp. cbv [train_manifests] in Hp.
    repeat (apply elem_of_cons in Hp as [-> | Hp]; [reflexivity|]).
    by apply elem_of_nil in Hp.
Defined.

Lemma zfill_two_digits_witness : zfill 2 (format_int 7) = two_digits 7.
Proof. apply zfill_two_digits. lia. Defined.
